(** * TCLMarket: pricing and bet-lifecycle engine

    A shallow embedding of the Mongoose models ([Bet], [Market], [User],
    [Transaction]) and of the Express routes that place, cancel and settle
    bets, followed by the properties of the specification that can be
    settled on it.

    Conventions.
    - A JavaScript [Number] is idealised as a real number ([R]); stakes,
      counters and timestamps, which the code only ever builds from
      integers, are [Z] or [nat] and are injected with [IZR] / [INR] where
      the code mixes them with prices.
    - A plain JavaScript object used as a dictionary is an association list
      in insertion order ([Obj]); only own properties are modelled.
    - The database is one sequentially consistent document store: a write
      is visible to every later read, with or without [{ session }].  A
      write that carries the session is also logged, and
      [abortTransaction] puts the logged documents back; a write made
      without the session is not undone.
    - A route is a function from the store to an HTTP answer (status and
      message) and the store it leaves.  An exception keeps the writes made
      before it.  [req.user] (loaded by the authentication middleware) and
      the clock ([now], in milliseconds) are arguments; the checks of
      express-validator are the first test of each route.  Console output
      and socket emission are not modelled. *)

From Stdlib Require Import String DecimalString.
From Stdlib Require Import Reals Lra Lia ZArith Bool Arith List Permutation.
Import ListNotations.

Open Scope string_scope.
Open Scope Z_scope.

Definition Id := nat.
Bind Scope nat_scope with Id.

(** ** JavaScript objects used as dictionaries *)

Module Obj.

Definition t (V : Type) := list (string * V).

Fixpoint get {V} (k : string) (o : t V) : option V :=
  match o with
  | [] => None
  | (k', v) :: rest => if String.eqb k k' then Some v else get k rest
  end.

(** [o[k] = v]: overwrite in place, or append a new own property. *)
Fixpoint set {V} (k : string) (v : V) (o : t V) : t V :=
  match o with
  | [] => [(k, v)]
  | (k', v') :: rest =>
      if String.eqb k k' then (k', v) :: rest else (k', v') :: set k v rest
  end.

Definition keys {V} (o : t V) : list string := map fst o.
Definition values {V} (o : t V) : list V := map snd o.

End Obj.

(** ** models/Bet.js *)

Module Bet.

Inductive Status := active | won | lost | refunded.

Definition Status_eqb (a b : Status) : bool :=
  match a, b with
  | active, active | won, won | lost, lost | refunded, refunded => true
  | _, _ => false
  end.

Record t := mk {
  _id : Id;
  userId : Id;
  marketId : Id;
  option : string;
  amount : Z;
  oddsAtTime : R;
  potentialPayout : R;
  status : Status;
  createdAt : Z;
  settledAt : Datatypes.option Z;
  actualPayout : R
}.

(** [this.potentialPayout = this.amount / this.oddsAtTime] *)
Definition calculatePotentialPayout (this : t) : t :=
  mk (_id this) (userId this) (marketId this) (option this) (amount this)
     (oddsAtTime this) (IZR (amount this) / oddsAtTime this)%R
     (status this) (createdAt this) (settledAt this) (actualPayout this).

(** [settle(marketResolution)] *)
Definition settle (now : Z) (marketResolution : string) (this : t) : t :=
  if String.eqb (option this) marketResolution
  then mk (_id this) (userId this) (marketId this) (option this)
          (amount this) (oddsAtTime this) (potentialPayout this)
          won (createdAt this) (Some now) (potentialPayout this)
  else mk (_id this) (userId this) (marketId this) (option this)
          (amount this) (oddsAtTime this) (potentialPayout this)
          lost (createdAt this) (Some now) 0%R.

(** [refund()] *)
Definition refund (now : Z) (this : t) : t :=
  mk (_id this) (userId this) (marketId this) (option this) (amount this)
     (oddsAtTime this) (potentialPayout this)
     refunded (createdAt this) (Some now) (IZR (amount this)).

Definition terminal (s : Status) : bool :=
  match s with active => false | _ => true end.

End Bet.

(** ** models/Market.js *)

Module Market.

Inductive Type_ := binary | multiple | range.
Inductive Status := open | closed | resolved | cancelled.

Definition Status_eqb (a b : Status) : bool :=
  match a, b with
  | open, open | closed, closed | resolved, resolved
  | cancelled, cancelled => true
  | _, _ => false
  end.

Record t := mk {
  _id : Id;
  title : string;
  type : Type_;
  options : list string;
  endDate : Z;
  status : Status;
  currentOdds : Obj.t R;
  totalVolume : Z;
  liquidity : R;
  resolution : option string;
  resolutionDate : option Z;
  participantCount : nat
}.

Definition set_currentOdds (odds : Obj.t R) (this : t) : t :=
  mk (_id this) (title this) (type this) (options this) (endDate this)
     (status this) odds (totalVolume this) (liquidity this)
     (resolution this) (resolutionDate this) (participantCount this).

Definition set_totalVolume (v : Z) (this : t) : t :=
  mk (_id this) (title this) (type this) (options this) (endDate this)
     (status this) (currentOdds this) v (liquidity this)
     (resolution this) (resolutionDate this) (participantCount this).

Definition set_participantCount (n : nat) (this : t) : t :=
  mk (_id this) (title this) (type this) (options this) (endDate this)
     (status this) (currentOdds this) (totalVolume this) (liquidity this)
     (resolution this) (resolutionDate this) n.

(** [this.options[i]] used as a property key: a missing element reads
    [undefined], which becomes the key ["undefined"]. *)
Definition option_at (i : nat) (this : t) : string :=
  nth i (options this) "undefined".

(** [calculateInitialOdds()] *)
Definition calculateInitialOdds (this : t) : t :=
  let odds :=
    match type this with
    | binary =>
        Obj.set (option_at 1 this) 0.5%R
          (Obj.set (option_at 0 this) 0.5%R [])
    | _ =>
        let equalOdds := (1 / INR (length (options this)))%R in
        fold_left (fun odds option => Obj.set option equalOdds odds)
                  (options this) []
    end in
  set_currentOdds odds this.

(** [poolByOption[bet.option] = (poolByOption[bet.option] || 0) + bet.amount] *)
Definition or0 (v : option Z) : Z :=
  match v with Some x => x | None => 0 end.

Definition poolByOption (bets : list Bet.t) : Obj.t Z :=
  fold_left
    (fun pool bet =>
       Obj.set (Bet.option bet)
               (or0 (Obj.get (Bet.option bet) pool) + Bet.amount bet) pool)
    bets [].

(** [Object.values(poolByOption).reduce((a, b) => a + b, 0)] *)
Definition totalPool (pool : Obj.t Z) : Z :=
  fold_left Z.add (Obj.values pool) 0.

(** [!odds[option]]: the property is missing, or it holds 0. *)
Definition falsy (v : option R) : bool :=
  match v with
  | None => true
  | Some x => if Req_dec_T x 0 then true else false
  end.

(** The price the code assigns to one option with bets on it. *)
Definition lmsr (liquidity : R) (totalPool pool : Z) : R :=
  let otherPool := totalPool - pool in
  (1 / (1 + exp (IZR (otherPool - pool) / liquidity)))%R.

(** [updateOdds()], given the result of
    [Bet.find({ marketId: this._id, status: 'active' })].  The boolean
    tells whether the method reached [await this.save()]: the zero-pool
    branch returns before it. *)
Definition updateOdds (bets : list Bet.t) (this : t) : t * bool :=
  let pool := poolByOption bets in
  let total := totalPool pool in
  if total =? 0 then (calculateInitialOdds this, false)
  else
    let odds :=
      fold_left
        (fun odds option =>
           Obj.set option
             (lmsr (liquidity this) total (or0 (Obj.get option pool))) odds)
        (Obj.keys pool) [] in
    let odds :=
      fold_left
        (fun odds option =>
           if falsy (Obj.get option odds)
           then Obj.set option
                  (1 / (1 + exp (IZR total / liquidity this)))%R odds
           else odds)
        (options this) odds in
    (set_totalVolume total (set_currentOdds odds this), true).

(** [isOpen()] *)
Definition isOpen (now : Z) (this : t) : bool :=
  Status_eqb (status this) open && (now <? endDate this).

(** [resolve(resolution)] *)
Definition resolve (now : Z) (res : string) (this : t) : t :=
  mk (_id this) (title this) (type this) (options this) (endDate this)
     resolved (currentOdds this) (totalVolume this) (liquidity this)
     (Some res) (Some now) (participantCount this).

End Market.

(** ** models/User.js *)

Module User.

Record t := mk {
  _id : Id;
  balance : R;
  totalWinnings : R;
  totalBets : nat;
  winningBets : nat;
  winRate : R;
  achievements : list string
}.

(** The document paths the routes assign to.  Mongoose's [save()] writes
    the paths modified since the document was loaded, not the whole
    document. *)
Inductive Path :=
| balance_ | totalWinnings_ | totalBets_ | winningBets_ | winRate_
| achievements_.

(** Copy path [p] of [src] into [dst]. *)
Definition assign (dst : t) (src : t) (p : Path) : t :=
  match p with
  | balance_ =>
      mk (_id dst) (balance src) (totalWinnings dst) (totalBets dst)
         (winningBets dst) (winRate dst) (achievements dst)
  | totalWinnings_ =>
      mk (_id dst) (balance dst) (totalWinnings src) (totalBets dst)
         (winningBets dst) (winRate dst) (achievements dst)
  | totalBets_ =>
      mk (_id dst) (balance dst) (totalWinnings dst) (totalBets src)
         (winningBets dst) (winRate dst) (achievements dst)
  | winningBets_ =>
      mk (_id dst) (balance dst) (totalWinnings dst) (totalBets dst)
         (winningBets src) (winRate dst) (achievements dst)
  | winRate_ =>
      mk (_id dst) (balance dst) (totalWinnings dst) (totalBets dst)
         (winningBets dst) (winRate src) (achievements dst)
  | achievements_ =>
      mk (_id dst) (balance dst) (totalWinnings dst) (totalBets dst)
         (winningBets dst) (winRate dst) (achievements src)
  end.

Definition merge (paths : list Path) (src dst : t) : t :=
  fold_left (fun d p => assign d src p) paths dst.

Definition set_balance (b : R) (this : t) : t :=
  mk (_id this) b (totalWinnings this) (totalBets this)
     (winningBets this) (winRate this) (achievements this).

Definition set_totalWinnings (w : R) (this : t) : t :=
  mk (_id this) (balance this) w (totalBets this)
     (winningBets this) (winRate this) (achievements this).

Definition set_totalBets (n : nat) (this : t) : t :=
  mk (_id this) (balance this) (totalWinnings this) n
     (winningBets this) (winRate this) (achievements this).

Definition set_winningBets (n : nat) (this : t) : t :=
  mk (_id this) (balance this) (totalWinnings this) (totalBets this)
     n (winRate this) (achievements this).

(** [updateWinRate()] *)
Definition updateWinRate (this : t) : t :=
  if (0 <? totalBets this)%nat
  then mk (_id this) (balance this) (totalWinnings this) (totalBets this)
          (winningBets this)
          (INR (winningBets this) / INR (totalBets this) * 100)%R
          (achievements this)
  else this.

(** [addAchievement(achievementType)] *)
Definition addAchievement (achievementType : string) (this : t) : t :=
  if existsb (String.eqb achievementType) (achievements this) then this
  else mk (_id this) (balance this) (totalWinnings this) (totalBets this)
          (winningBets this) (winRate this)
          (achievements this ++ [achievementType]).

End User.

(** ** models/Transaction.js: the schema *)

Module Transaction.

Record t := mk {
  _id : Id;
  userId : Id;
  type : string;
  amount : R;
  balanceBefore : R;
  balanceAfter : R;
  description : string;
  relatedBetId : option Id;
  relatedMarketId : option Id;
  adminId : option Id
}.

(** The argument of [createTransaction]. *)
Record Data := mkData {
  d_userId : Id;
  d_type : string;
  d_amount : R;
  d_description : string;
  d_relatedBetId : option Id;
  d_relatedMarketId : option Id;
  d_adminId : option Id
}.

(** [type: { enum: [...] }] *)
Definition type_enum : list string :=
  ["bet"; "win"; "refund"; "admin_adjustment"; "deposit"; "withdrawal"].

Definition valid_type (ty : string) : bool :=
  existsb (String.eqb ty) type_enum.

End Transaction.

(** ** The document store *)

(** What [abortTransaction] has to put back: the previous contents of the
    documents written through the session. *)
Inductive Undo :=
| UndoUser (paths : list User.Path) (pre : User.t)
| UndoBet (id : Id) (pre : option Bet.t)
| UndoMarket (pre : Market.t).

Record Store := mkStore {
  users : list User.t;
  markets : list Market.t;
  bets : list Bet.t;
  transactions : list Transaction.t;   (* the ledger, oldest first *)
  nextId : Id;                         (* ObjectId supply *)
  txlog : list Undo                    (* open transaction, newest first *)
}.

Definition set_users (us : list User.t) (s : Store) : Store :=
  mkStore us (markets s) (bets s) (transactions s) (nextId s) (txlog s).
Definition set_markets (ms : list Market.t) (s : Store) : Store :=
  mkStore (users s) ms (bets s) (transactions s) (nextId s) (txlog s).
Definition set_bets (bs : list Bet.t) (s : Store) : Store :=
  mkStore (users s) (markets s) bs (transactions s) (nextId s) (txlog s).
Definition set_transactions (ts : list Transaction.t) (s : Store) : Store :=
  mkStore (users s) (markets s) (bets s) ts (nextId s) (txlog s).
Definition set_nextId (n : Id) (s : Store) : Store :=
  mkStore (users s) (markets s) (bets s) (transactions s) n (txlog s).
Definition set_txlog (l : list Undo) (s : Store) : Store :=
  mkStore (users s) (markets s) (bets s) (transactions s) (nextId s) l.

Definition findUser (id : Id) (s : Store) : option User.t :=
  find (fun u => Nat.eqb (User._id u) id) (users s).
Definition findMarket (id : Id) (s : Store) : option Market.t :=
  find (fun m => Nat.eqb (Market._id m) id) (markets s).
Definition findBet (id : Id) (s : Store) : option Bet.t :=
  find (fun b => Nat.eqb (Bet._id b) id) (bets s).

(** Replace the stored document that has the same [_id]. *)
Fixpoint replace {A} (same : A -> bool) (f : A -> A) (l : list A) : list A :=
  match l with
  | [] => []
  | x :: rest => if same x then f x :: rest else x :: replace same f rest
  end.

Definition writeUser (paths : list User.Path) (doc : User.t) (s : Store)
  : Store :=
  set_users
    (replace (fun u => Nat.eqb (User._id u) (User._id doc))
             (User.merge paths doc) (users s)) s.

Definition writeMarket (doc : Market.t) (s : Store) : Store :=
  set_markets
    (replace (fun m => Nat.eqb (Market._id m) (Market._id doc))
             (fun _ => doc) (markets s)) s.

(** A bet is inserted by its first save and updated by the later ones. *)
Definition writeBet (doc : Bet.t) (s : Store) : Store :=
  match findBet (Bet._id doc) s with
  | Some _ =>
      set_bets
        (replace (fun b => Nat.eqb (Bet._id b) (Bet._id doc))
                 (fun _ => doc) (bets s)) s
  | None => set_bets (bets s ++ [doc]) s
  end.

Definition removeBet (id : Id) (s : Store) : Store :=
  set_bets (filter (fun b => negb (Nat.eqb (Bet._id b) id)) (bets s)) s.

Definition undo (u : Undo) (s : Store) : Store :=
  match u with
  | UndoUser paths pre => writeUser paths pre s
  | UndoBet id (Some pre) => writeBet pre s
  | UndoBet id None => removeBet id s
  | UndoMarket pre => writeMarket pre s
  end.

(** ** Handlers: state that survives a thrown exception *)

Inductive Error :=
| ReferenceError (msg : string)
| TypeError (msg : string)
| ValidationError (msg : string)
| PlainError (msg : string).

Inductive Exc (A : Type) :=
| Ok (a : A)
| Throw (e : Error).
Arguments Ok {A} a.
Arguments Throw {A} e.

Definition M (A : Type) := Store -> Exc A * Store.

Definition ret {A} (a : A) : M A := fun s => (Ok a, s).
Definition throw {A} (e : Error) : M A := fun s => (Throw e, s).
Definition bind {A B} (m : M A) (k : A -> M B) : M B :=
  fun s =>
    match m s with
    | (Ok a, s') => k a s'
    | (Throw e, s') => (Throw e, s')
    end.
Definition try_catch {A} (m : M A) (handler : Error -> M A) : M A :=
  fun s =>
    match m s with
    | (Ok a, s') => (Ok a, s')
    | (Throw e, s') => handler e s'
    end.
Definition gets {A} (f : Store -> A) : M A := fun s => (Ok (f s), s).
Definition modify (f : Store -> Store) : M unit := fun s => (Ok tt, f s).

Declare Scope js_scope.
Delimit Scope js_scope with js.
Notation "x <- m ;; k" := (bind m (fun x => k))
  (at level 61, m at next level, right associativity) : js_scope.
Notation "m ;; k" := (bind m (fun _ => k))
  (at level 61, right associativity) : js_scope.
Open Scope js_scope.

(** ** Mongoose operations *)

(** Whether a call carries [{ session }]. *)
Inductive SaveOpt := in_session | no_session.

Definition logUndo (opt : SaveOpt) (u : Undo) (s : Store) : Store :=
  match opt with
  | in_session => set_txlog (u :: txlog s) s
  | no_session => s
  end.

Definition newObjectId : M Id :=
  fun s => (Ok (nextId s), set_nextId (S (nextId s)) s).

Definition startTransaction : M unit := modify (set_txlog []).
Definition commitTransaction : M unit := modify (set_txlog []).
Definition abortTransaction : M unit :=
  modify (fun s => set_txlog [] (fold_left (fun st u => undo u st) (txlog s) s)).

Definition is_balance (p : User.Path) : bool :=
  match p with User.balance_ => true | _ => false end.

(** [user.save()]: validates the modified paths ([balance: { min: 0 }]) and
    writes them. *)
Definition User_save (opt : SaveOpt) (paths : list User.Path) (doc : User.t)
  : M unit :=
  fun s =>
    if existsb is_balance paths && (if Rlt_dec (User.balance doc) 0 then true else false)
    then (Throw (ValidationError "balance is less than minimum allowed value (0)"), s)
    else
      match findUser (User._id doc) s with
      | Some pre => (Ok tt, logUndo opt (UndoUser paths pre) (writeUser paths doc s))
      | None => (Ok tt, s)
      end.

(** [bet.save()].  The schema's [amount: { min: 1 }] is not checked again:
    the only insertion is behind the route's own [isInt({ min: 1 })]. *)
Definition Bet_save (opt : SaveOpt) (doc : Bet.t) : M unit :=
  fun s =>
    (Ok tt, logUndo opt (UndoBet (Bet._id doc) (findBet (Bet._id doc) s))
                    (writeBet doc s)).

(** [market.save()] *)
Definition Market_save (opt : SaveOpt) (doc : Market.t) : M unit :=
  fun s =>
    match findMarket (Market._id doc) s with
    | Some pre => (Ok tt, logUndo opt (UndoMarket pre) (writeMarket doc s))
    | None => (Ok tt, s)
    end.

(** [transaction.save()]: the [type] must be one of the schema's [enum].
    (The other validators cannot fail on what the routes pass: every
    description is non-empty and well under 500 characters.) *)
Definition Transaction_save (doc : Transaction.t) : M Transaction.t :=
  fun s =>
    if Transaction.valid_type (Transaction.type doc)
    then (Ok doc, set_transactions (transactions s ++ [doc]) s)
    else (Throw (ValidationError
                   ("`" ++ Transaction.type doc ++
                    "` is not a valid enum value for path `type`.")), s).

(** [Bet.find({ marketId, status: 'active' })] *)
Definition activeBetsOn (marketId : Id) (s : Store) : list Bet.t :=
  filter (fun b => Nat.eqb (Bet.marketId b) marketId
                   && Bet.Status_eqb (Bet.status b) Bet.active) (bets s).

(** [Bet.findOne({ userId, marketId, status: 'active' })] *)
Definition activeBetOf (userId marketId : Id) (s : Store) : option Bet.t :=
  find (fun b => Nat.eqb (Bet.userId b) userId
                 && Nat.eqb (Bet.marketId b) marketId
                 && Bet.Status_eqb (Bet.status b) Bet.active) (bets s).

(** [Bet.distinct('userId', { marketId })] *)
Definition distinctUsersOn (marketId : Id) (s : Store) : list Id :=
  nodup Nat.eq_dec
    (map Bet.userId
       (filter (fun b => Nat.eqb (Bet.marketId b) marketId) (bets s))).

(** [Transaction.createTransaction(data)] (models/Transaction.js) *)
Definition createTransaction (data : Transaction.Data) : M Transaction.t :=
  user <- gets (findUser (Transaction.d_userId data)) ;;
  match user with
  | None => throw (PlainError "User not found")
  | Some user =>
      id <- newObjectId ;;
      let transaction :=
        Transaction.mk id
          (Transaction.d_userId data) (Transaction.d_type data)
          (Transaction.d_amount data)
          (User.balance user)
          (User.balance user + Transaction.d_amount data)%R
          (Transaction.d_description data)
          (Transaction.d_relatedBetId data)
          (Transaction.d_relatedMarketId data)
          (Transaction.d_adminId data) in
      (* Update user balance *)
      let user :=
        User.set_balance (User.balance user + Transaction.d_amount data)%R
                         user in
      User_save no_session [User.balance_] user ;;
      Transaction_save transaction
  end.

(** [market.updateOdds()] against the store: the method reads the active
    bets, recomputes, and saves unless it took the zero-pool branch.  The
    result is the in-memory document. *)
Definition Market_updateOdds (this : Market.t) : M Market.t :=
  bets <- gets (activeBetsOn (Market._id this)) ;;
  let (this', saved) := Market.updateOdds bets this in
  (if saved then Market_save no_session this' else ret tt) ;;
  ret this'.

(** ** services/websocketService.js *)

Module WebSocketService.

(** [constructor(io)] stores [io] and calls [setupEventHandlers()], whose
    first statement is [this.io.on('connection', ...)]. *)
Definition new (io : option unit) : M unit :=
  match io with
  | Some _ => ret tt
  | None =>
      throw (TypeError "Cannot read properties of undefined (reading 'on')")
  end.

End WebSocketService.

(** ** HTTP responses *)

Inductive Response := Json (status : nat) (message : string).

Definition status_of (r : Response) : nat :=
  match r with Json st _ => st end.

(** The route's outer [try { ... } catch (error) { res.status(500) ... }]. *)
Definition route (body : M Response) (s : Store) : Response * Store :=
  match body s with
  | (Ok r, s') => (r, s')
  | (Throw _, s') => (Json 500 "Server error", s')
  end.

(** The decimal text of an integer, as a template literal prints it. *)
Definition show (z : Z) : string :=
  DecimalString.NilZero.string_of_int (Z.to_int z).

(** ** routes/bets.js *)

Definition includes (x : string) (l : list string) : bool :=
  existsb (String.eqb x) l.

(** The body of the inner [try] of [POST /] up to [session.endSession()]:
    the atomic unit of a placement.  [user] is [req.user], the document the
    authentication middleware loaded. *)
Definition placeBet_transaction (now : Z) (user : User.t) (market : Market.t)
    (marketId : Id) (option : string) (amount : Z) (currentOdds : R)
  : M (Bet.t * User.t) :=
  (* Create bet *)
  betId <- newObjectId ;;
  let bet :=
    Bet.mk betId (User._id user) marketId option amount currentOdds 0%R
           Bet.active now None 0%R in
  (* Calculate potential payout *)
  let bet := Bet.calculatePotentialPayout bet in
  (* Deduct from user balance *)
  let user := User.set_balance (User.balance user - IZR amount)%R user in
  let user := User.set_totalBets (User.totalBets user + 1)%nat user in
  User_save in_session [User.balance_; User.totalBets_] user ;;
  (* Save bet *)
  Bet_save in_session bet ;;
  (* Create transaction *)
  createTransaction
    (Transaction.mkData (User._id user) "bet" (- IZR amount)%R
       ("Bet " ++ show amount ++ " units on " ++ option ++ " for market: "
        ++ Market.title market)
       (Some (Bet._id bet)) (Some marketId) None) ;;
  (* Update market odds *)
  market <- Market_updateOdds market ;;
  (* Update participant count *)
  participantCount <- gets (distinctUsersOn marketId) ;;
  let market := Market.set_participantCount (length participantCount) market in
  Market_save in_session market ;;
  commitTransaction ;;
  ret (bet, user).

(** [POST /].  The inner [catch] calls [abortTransaction] and rethrows;
    after the commit there is nothing left to undo. *)
Definition placeBet (now : Z) (user : User.t) (marketId : Id)
    (option : string) (amount : Z) : Store -> Response * Store :=
  route (
    if String.eqb option "" || negb (1 <=? amount)
    then ret (Json 400 "Validation failed")
    else
    (* Check if user has sufficient balance *)
    if Rlt_dec (User.balance user) (IZR amount)
    then ret (Json 400 "Insufficient balance")
    else
    (* Find and validate market *)
    market <- gets (findMarket marketId) ;;
    match market with
    | None => ret (Json 404 "Market not found")
    | Some market =>
    if negb (Market.isOpen now market)
    then ret (Json 400 "Market is not open for betting")
    else
    (* Check if option is valid *)
    if negb (includes option (Market.options market))
    then ret (Json 400 "Invalid betting option")
    else
    (* Check if user already has a bet on this market (optional rule) *)
    existingBet <- gets (activeBetOf (User._id user) marketId) ;;
    match existingBet with
    | Some _ => ret (Json 400 "You already have an active bet on this market")
    | None =>
    (* Get current odds for the option *)
    let currentOdds := Obj.get option (Market.currentOdds market) in
    match currentOdds with
    | None => ret (Json 400 "Odds not available for this option")
    | Some currentOdds =>
    if Market.falsy (Some currentOdds)
    then ret (Json 400 "Odds not available for this option")
    else
    (* Start transaction for atomicity *)
    startTransaction ;;
    try_catch (
      placed <- placeBet_transaction now user market marketId option amount
                                     currentOdds ;;
      let (bet, user) := placed in
      (* Add achievement for first bet *)
      (if Nat.eqb (User.totalBets user) 1
       then User_save no_session
              (if includes "first_bet" (User.achievements user)
               then [] else [User.achievements_])
              (User.addAchievement "first_bet" user)
       else ret tt) ;;
      (* Emit real-time update: [new WebSocketService()], with no [io];
         the broadcast itself is past the point the constructor reaches *)
      WebSocketService.new None ;;
      ret (Json 201 "Bet placed successfully")
    ) (fun error => abortTransaction ;; throw error)
    end end end).

(** The body of the inner [try] of [DELETE /:id] up to
    [session.endSession()]: the atomic unit of a cancellation. *)
Definition cancelBet_transaction (now : Z) (reqUser : User.t) (bet : Bet.t)
    (market : Market.t) : M Bet.t :=
  (* Refund bet *)
  let bet := Bet.refund now bet in
  Bet_save in_session bet ;;
  (* Refund user balance *)
  user <- gets (findUser (User._id reqUser)) ;;
  match user with
  | None => throw (TypeError "Cannot read properties of null (reading 'balance')")
  | Some user =>
      let user :=
        User.set_balance (User.balance user + IZR (Bet.amount bet))%R user in
      User_save in_session [User.balance_] user ;;
      (* Create transaction *)
      createTransaction
        (Transaction.mkData (User._id user) "refund" (IZR (Bet.amount bet))
           ("Refunded bet on market: " ++ Market.title market)
           (Some (Bet._id bet)) (Some (Market._id market)) None) ;;
      (* Update market odds *)
      Market_updateOdds market ;;
      commitTransaction ;;
      ret bet
  end.

(** [DELETE /:id] *)
Definition cancelBet (now : Z) (reqUser : User.t) (betId : Id)
  : Store -> Response * Store :=
  route (
    bet <- gets (findBet betId) ;;
    match bet with
    | None => ret (Json 404 "Bet not found")
    | Some bet =>
    (* Check if user owns this bet *)
    if negb (Nat.eqb (Bet.userId bet) (User._id reqUser))
    then ret (Json 403 "Access denied")
    else
    (* Check if bet is still active *)
    if negb (Bet.Status_eqb (Bet.status bet) Bet.active)
    then ret (Json 400 "Cannot cancel settled bet")
    else
    (* Check if market is still open *)
    market <- gets (findMarket (Bet.marketId bet)) ;;
    match market with
    | None => throw (TypeError "Cannot read properties of null (reading 'isOpen')")
    | Some market =>
    if negb (Market.isOpen now market)
    then ret (Json 400 "Cannot cancel bet after market has closed")
    else
    (* Check if bet is recent (within 5 minutes) *)
    let betAge := now - Bet.createdAt bet in
    if betAge >? 5 * 60 * 1000
    then ret (Json 400 "Can only cancel bets within 5 minutes of placement")
    else
    (* Start transaction *)
    startTransaction ;;
    try_catch (
      cancelBet_transaction now reqUser bet market ;;
      ret (Json 200 "Bet cancelled successfully")
    ) (fun error => abortTransaction ;; throw error)
    end end).

(** ** routes/admin.js *)

(** [POST /users/:id/balance]: the administrative adjustment, which uses no
    session at all.  ([reason] is measured as given; the sanitizer's
    [trim()] is left out.) *)
Definition adjustBalance (adminId userId : Id) (amount : Z) (reason : string)
  : Store -> Response * Store :=
  route (
    if (String.length reason <? 5)%nat || (200 <? String.length reason)%nat
    then ret (Json 400 "Validation failed")
    else
    user <- gets (findUser userId) ;;
    match user with
    | None => ret (Json 404 "User not found")
    | Some user =>
        let user :=
          User.set_balance (User.balance user + IZR amount)%R user in
        if Rlt_dec (User.balance user) 0
        then ret (Json 400 "Insufficient balance for this adjustment")
        else
          User_save no_session [User.balance_] user ;;
          (* Create transaction *)
          createTransaction
            (Transaction.mkData userId "admin_adjustment" (IZR amount)
               ("Admin adjustment: " ++ reason) None None (Some adminId)) ;;
          ret (Json 200 "Balance adjusted successfully")
    end).

(** ** routes/markets.js *)

(** What the host provides beyond the module's own bindings. *)
Record Env := mkEnv {
  globals : list string   (* properties of the global object *)
}.

(** A plain Node.js process: none of the application's names is global. *)
Definition node : Env := mkEnv ["console"; "process"; "Date"; "Math"; "Object"].

(** The identifiers in scope inside the settlement loop of markets.js: the
    module wrapper's, the module's [const]s and the handler's locals.  The
    file requires express, express-validator, the Market and Bet models and
    the auth middleware, and nothing else. *)
Definition markets_js_scope : list string :=
  ["require"; "module"; "exports"; "__filename"; "__dirname";
   "express"; "body"; "validationResult"; "query"; "Market"; "Bet";
   "auth"; "adminAuth"; "router";
   "req"; "res"; "errors"; "market"; "resolution";
   "User"; "Transaction"; "activeBets"; "bet"; "session"].

(** Reading an identifier: found in the scope chain, or on the global
    object, or a [ReferenceError]. *)
Definition identifier (scope : list string) (env : Env) (name : string)
  : M unit :=
  if includes name scope || includes name (globals env)
  then ret tt
  else throw (ReferenceError (name ++ " is not defined")).

(** The statements of the settlement loop that update the in-memory user
    document, from [if (bet.status === 'won')] to [user.updateWinRate()]. *)
Definition settle_user (bet : Bet.t) (user : User.t) : User.t :=
  let user :=
    if Bet.Status_eqb (Bet.status bet) Bet.won then
      let user :=
        User.set_balance (User.balance user + Bet.actualPayout bet)%R user in
      let user :=
        User.set_totalWinnings
          (User.totalWinnings user
           + (Bet.actualPayout bet - IZR (Bet.amount bet)))%R user in
      let user :=
        User.set_winningBets (User.winningBets user + 1)%nat user in
      (* Add achievement for first win *)
      if Nat.eqb (User.winningBets user) 1
      then User.addAchievement "first_win" user
      else user
    else user in
  let user := User.set_totalBets (User.totalBets user + 1)%nat user in
  User.updateWinRate user.

(** The body of the [try] inside the settlement loop: the atomic unit of
    one bet's settlement. *)
Definition settleBet_transaction (now : Z) (market : Market.t)
    (resolution : string) (bet : Bet.t) : M unit :=
  let bet := Bet.settle now resolution bet in
  Bet_save in_session bet ;;
  user <- gets (findUser (Bet.userId bet)) ;;
  match user with
  | None => throw (TypeError "Cannot read properties of null")
  | Some user =>
      let isWon := Bet.Status_eqb (Bet.status bet) Bet.won in
      let user := settle_user bet user in
      User_save in_session
        (if isWon
         then [User.balance_; User.totalWinnings_; User.winningBets_;
               User.achievements_; User.totalBets_; User.winRate_]
         else [User.totalBets_; User.winRate_])
        user ;;
      (* Create transaction *)
      createTransaction
        (Transaction.mkData (Bet.userId bet)
           (if isWon then "win" else "loss")
           (Bet.actualPayout bet - IZR (Bet.amount bet))%R
           ("Bet " ++ (if isWon then "won" else "lost") ++ " on market: "
            ++ Market.title market)
           (Some (Bet._id bet)) (Some (Market._id market)) None) ;;
      commitTransaction
  end.

(** [for (const bet of activeBets) { ... }].  The session is opened before
    the [try]; an exception there leaves the loop. *)
Fixpoint settleLoop (env : Env) (now : Z) (market : Market.t)
    (resolution : string) (activeBets : list Bet.t) : M unit :=
  match activeBets with
  | [] => ret tt
  | bet :: rest =>
      identifier markets_js_scope env "mongoose" ;;
      startTransaction ;;
      try_catch (settleBet_transaction now market resolution bet)
                (fun error => abortTransaction) ;;
      settleLoop env now market resolution rest
  end.

(** [POST /:id/resolve] *)
Definition resolveMarket (env : Env) (now : Z) (marketId : Id)
    (resolution : string) : Store -> Response * Store :=
  route (
    if String.eqb resolution ""
    then ret (Json 400 "Validation failed")
    else
    market <- gets (findMarket marketId) ;;
    match market with
    | None => ret (Json 404 "Market not found")
    | Some market =>
    if negb (Market.Status_eqb (Market.status market) Market.open)
       && negb (Market.Status_eqb (Market.status market) Market.closed)
    then ret (Json 400 "Market cannot be resolved")
    else
    (* Check if resolution is valid *)
    if negb (includes resolution (Market.options market))
    then ret (Json 400 "Invalid resolution option")
    else
    (* Resolve market *)
    let market := Market.resolve now resolution market in
    Market_save no_session market ;;
    (* Settle all bets for this market *)
    activeBets <- gets (activeBetsOn (Market._id market)) ;;
    settleLoop env now market resolution activeBets ;;
    ret (Json 200 "Market resolved successfully")
    end).

(** ** Vocabulary of the specification *)

Definition Rsum (l : list R) : R := fold_right Rplus 0%R l.




(** The ledger entries of one user, in creation order, and the sum of
    their [amount]s ([amountDelta] in the specification). *)
Definition ledgerOf (userId : Id) (s : Store) : list Transaction.t :=
  filter (fun t => Nat.eqb (Transaction.userId t) userId) (transactions s).

Definition ledgerSum (userId : Id) (s : Store) : R :=
  Rsum (map Transaction.amount (ledgerOf userId s)).

Definition balanceOf (userId : Id) (s : Store) : option R :=
  option_map User.balance (findUser userId s).

(** Whether a bet backs the given option. *)
Definition on (option : string) (b : Bet.t) : bool :=
  String.eqb (Bet.option b) option.






(** ** Sample data *)

Module Sample.

Definition alice : User.t := User.mk 1 1000 0 0 0 0 [].
Definition bob : User.t := User.mk 2 1000 0 0 0 0 [].
Definition carol : User.t := User.mk 3 1000 0 0 0 0 [].

(** A binary market as the creation route builds it. *)
Definition rain : Market.t :=
  Market.calculateInitialOdds
    (Market.mk 10 "Rain tomorrow?" Market.binary ["yes"; "no"] 86400000
               Market.open [] 0 10000 None None 0).

(** A three-way market. *)
Definition cup : Market.t :=
  Market.calculateInitialOdds
    (Market.mk 11 "Cup winner?" Market.multiple ["red"; "green"; "blue"]
               86400000 Market.open [] 0 10000 None None 0).

Definition bet (id userId marketId : Id) (option : string) (amount : Z)
    (odds : R) : Bet.t :=
  Bet.calculatePotentialPayout
    (Bet.mk id userId marketId option amount odds 0 Bet.active 0 None 0).

Definition s0 : Store := mkStore [alice; bob; carol] [rain; cup] [] [] 100 [].

End Sample.


(** C7 as the specification states it, for one bet. *)
Definition payout_invariant (b : Bet.t) : Prop :=
  Bet.terminal (Bet.status b) = true ->
  (Bet.actualPayout b = Bet.potentialPayout b <-> Bet.status b = Bet.won)
  /\ (Bet.status b <> Bet.won -> Bet.actualPayout b = 0%R).

(** Two stores that hold the same documents, whatever the bookkeeping
    ([nextId], [txlog]). *)
Definition same_others (s s' : Store) : Prop :=
  markets s' = markets s /\ bets s' = bets s
  /\ transactions s' = transactions s.

Module Placed.
Import Sample.

(** The store after Alice has staked 100 on "yes" at time 0, as
    [placeBet] leaves it. *)
Definition bet1 : Bet.t := bet 100 1 10 "yes" 100 0.5.

Definition alice1 : User.t := User.mk 1 800 0 1 0 0 ["first_bet"].

Definition rain1 : Market.t :=
  Market.set_participantCount 1 (fst (Market.updateOdds [bet1] rain)).

Definition entry1 : Transaction.t :=
  Transaction.mk 101 1 "bet" (-100) 900 800
    "Bet 100 units on yes for market: Rain tomorrow?"
    (Some 100%nat) (Some 10%nat) None.

Definition s1 : Store :=
  mkStore [alice1; bob; carol] [rain1; cup] [bet1] [entry1] 102 [].

End Placed.


(** A host that does define a global [mongoose]. *)
Definition with_mongoose : Env := mkEnv ("mongoose" :: globals node).

Module Crowd.
Import Sample.

(** Three stakes on the binary market, placed through the route one
    after the other: Alice 100 on "yes" at time 0, Bob 50 on "no" at
    time 1, Carol 30 on "yes" at time 2.  [s2] and [s3] are the stores
    after Bob's and after Carol's placement. *)
Definition bet2 : Bet.t :=
  Bet.calculatePotentialPayout
    (Bet.mk 102 2 10 "no" 50 (Market.lmsr 10000 100 0) 0 Bet.active 1
            None 0).

Definition bob1 : User.t := User.mk 2 900 0 1 0 0 ["first_bet"].

Definition rain2 : Market.t :=
  Market.set_participantCount 2
    (fst (Market.updateOdds [Placed.bet1; bet2] Placed.rain1)).

Definition entry2 : Transaction.t :=
  Transaction.mk 103 2 "bet" (-50) 950 900
    "Bet 50 units on no for market: Rain tomorrow?"
    (Some 102%nat) (Some 10%nat) None.

Definition s2 : Store :=
  mkStore [Placed.alice1; bob1; carol] [rain2; cup] [Placed.bet1; bet2]
          [Placed.entry1; entry2] 104 [].

Definition bet3 : Bet.t :=
  Bet.calculatePotentialPayout
    (Bet.mk 104 3 10 "yes" 30 (Market.lmsr 10000 150 100) 0 Bet.active 2
            None 0).

Definition carol1 : User.t := User.mk 3 940 0 1 0 0 ["first_bet"].

Definition rain3 : Market.t :=
  Market.set_participantCount 3
    (fst (Market.updateOdds [Placed.bet1; bet2; bet3] rain2)).

Definition entry3 : Transaction.t :=
  Transaction.mk 105 3 "bet" (-30) 970 940
    "Bet 30 units on yes for market: Rain tomorrow?"
    (Some 104%nat) (Some 10%nat) None.

Definition s3 : Store :=
  mkStore [Placed.alice1; bob1; carol1] [rain3; cup]
          [Placed.bet1; bet2; bet3]
          [Placed.entry1; entry2; entry3] 106 [].

End Crowd.

(** One committed placement or cancellation, and histories of them (no
    resolution in between). *)
Inductive committed : Store -> Store -> Prop :=
| committed_place now user market marketId option amount currentOdds
                  bet user' s s' :
    findUser (User._id user) s = Some user ->
    placeBet_transaction now user market marketId option amount currentOdds s
      = (Ok (bet, user'), s') ->
    committed s s'
| committed_cancel now reqUser bet market user s s' :
    findUser (User._id reqUser) s = Some user ->
    (0 <= User.balance user)%R -> 0 <= Bet.amount bet ->
    cancelBet_transaction now reqUser bet market s
      = (Ok (Bet.refund now bet), s') ->
    committed s s'.

Inductive history : Store -> Store -> Prop :=
| history_start s : history s s
| history_step s s1 s2 : history s s1 -> committed s1 s2 -> history s s2.

(** ** Running a handler on concrete data

    Everything in the model computes except the comparisons of reals
    ([Rlt_dec], [Req_dec_T]); these are decided one at a time, with the
    positivity of the prices where an [exp] is involved. *)

Ltac exp_facts :=
  repeat match goal with
  | H : context [(?a / (1 / (1 + exp ?x)))%R] |- _ =>
      lazymatch goal with
      | _ : (0 <= a / (1 / (1 + exp x)))%R |- _ => fail
      | _ => assert (0 <= a / (1 / (1 + exp x)))%R
               by (pose proof (exp_pos x);
                   replace (a / (1 / (1 + exp x)))%R
                     with (a * (1 + exp x))%R by (field; lra);
                   apply Rmult_le_pos; lra)
      end
  | H : context [(1 / (1 + exp ?x))%R] |- _ =>
      lazymatch goal with
      | _ : (0 < 1 / (1 + exp x))%R |- _ => fail
      | _ => assert (0 < 1 / (1 + exp x))%R
               by (pose proof (exp_pos x); apply Rdiv_lt_0_compat; lra)
      end
  end.

Ltac js_cbv :=
  cbv -[Rlt_dec Req_dec_T Rplus Rminus Rmult Rdiv Rinv Ropp IZR INR exp
        Rlt Rle Rgt Rge].

Ltac js_decide :=
  repeat (match goal with
          | |- context [Rlt_dec ?a ?b] =>
              let H := fresh "D" in
              destruct (Rlt_dec a b) as [H|H];
              [ try (exfalso; exp_facts; lra); try clear H
              | try (exfalso; exp_facts; lra); try clear H ]
          | |- context [Req_dec_T ?a ?b] =>
              let H := fresh "D" in
              destruct (Req_dec_T a b) as [H|H];
              [ try (exfalso; exp_facts; lra); try clear H
              | try (exfalso; exp_facts; lra); try clear H ]
          end; cbv beta iota).

Ltac js_run := js_cbv; js_decide.

(** ** Histories with administrative adjustments *)



(** ** routes/admin.js: the airdrop *)

(** The loop of [POST /generate-units] over the documents that
    [User.find({ isActive: true })] returned: each is credited in memory
    and saved, and then handed to [createTransaction]. *)
Fixpoint airdrop (adminId : Id) (amountPerUser : Z) (users : list User.t)
  : M unit :=
  match users with
  | [] => ret tt
  | user :: rest =>
      let user :=
        User.set_balance (User.balance user + IZR amountPerUser)%R user in
      User_save no_session [User.balance_] user ;;
      createTransaction
        (Transaction.mkData (User._id user) "admin_adjustment"
           (IZR amountPerUser)
           ("Admin: Generated " ++ show amountPerUser ++ " units (airdrop)")
           None None (Some adminId)) ;;
      airdrop adminId amountPerUser rest
  end.

(** [POST /generate-units] for a body without [userId] ("Distribute
    equally to all users").  [isActive] reads the [isActive] flag of a
    user document, which the record [User.t] leaves out.  With no active
    user [amount / users.length] is [Infinity], which is not [=== 0], and
    the loop has nothing to do. *)
Definition generateUnits (isActive : User.t -> bool) (adminId : Id)
    (amount : Z) : Store -> Response * Store :=
  route (
    if negb (1 <=? amount) || (1000000 <? amount)
    then ret (Json 400 "Validation failed")
    else
    users <- gets (fun s => filter isActive (users s)) ;;
    match users with
    | [] => ret (Json 200 "Generated Infinity units for each of 0 users")
    | _ :: _ =>
        let amountPerUser := amount / Z.of_nat (length users) in
        if amountPerUser =? 0
        then ret (Json 400 "Amount too small to distribute")
        else
          airdrop adminId amountPerUser users ;;
          ret (Json 200
                 ("Generated " ++ show amountPerUser
                  ++ " units for each of "
                  ++ show (Z.of_nat (length users)) ++ " users"))
    end).

(** * Properties *)

(** ** Dictionaries *)


Lemma get_set_other {V} (k k' : string) (v : V) (o : Obj.t V) :
  k <> k' -> Obj.get k (Obj.set k' v o) = Obj.get k o.
Proof.
  intros Hne. induction o as [|[k2 v2] o IH]; simpl.
  - destruct (String.eqb_spec k k'); congruence.
  - destruct (String.eqb_spec k' k2); simpl.
    + subst k2. destruct (String.eqb_spec k k'); congruence.
    + destruct (String.eqb_spec k k2); auto.
Qed.







(** ** Pools *)








(** ** The two loops of [updateOdds] *)

Lemma price_pos (x : R) : (0 < 1 / (1 + exp x))%R.
Proof.
  pose proof (exp_pos x). apply Rdiv_lt_0_compat; lra.
Qed.

Lemma price_truthy (x : R) : Market.falsy (Some (1 / (1 + exp x))%R) = false.
Proof.
  simpl. destruct (Req_dec_T _ _) as [E|E]; auto.
  pose proof (price_pos x). lra.
Qed.








Lemma includes_In (x : string) (l : list string) :
  includes x l = true <-> In x l.
Proof.
  unfold includes. rewrite existsb_exists. split.
  - intros [y [Hin Heq]]. apply String.eqb_eq in Heq. now subst.
  - intros H. exists x. split; auto. apply String.eqb_refl.
Qed.






(** ** The pricing claims *)







(** ** Normalisation of the price vector *)






Lemma Rsum_app (l l' : list R) : Rsum (l ++ l') = (Rsum l + Rsum l')%R.
Proof. induction l as [|x l IH]; simpl; [lra | rewrite IH; lra]. Qed.









(** ** Terminal bets *)

(** C7, counterexample.  A cancelled bet of 100 units is terminal
    ([refunded]) and its [actualPayout] is the stake, 100, not 0. *)
Lemma C7_counterexample :
  Bet.status (Bet.refund 60000 (Sample.bet 100 1 10 "yes" 100 0.5))
    = Bet.refunded
  /\ Bet.actualPayout (Bet.refund 60000 (Sample.bet 100 1 10 "yes" 100 0.5))
     = 100%R
  /\ ~ payout_invariant
        (Bet.refund 60000 (Sample.bet 100 1 10 "yes" 100 0.5)).
Proof.
  split; [reflexivity|]. split; [reflexivity|].
  unfold payout_invariant. intros H.
  destruct (H eq_refl) as [_ H0].
  assert (E : Bet.actualPayout
                (Bet.refund 60000 (Sample.bet 100 1 10 "yes" 100 0.5)) = 0%R)
    by (apply H0; discriminate).
  simpl in E. lra.
Qed.

(** C7, amended.  A bet settled at resolution is [won] with
    [actualPayout = potentialPayout] or [lost] with [actualPayout = 0], and
    (its potential payout being non-zero) the payout equals the potential
    payout exactly when it is won; a refunded bet carries its stake as
    [actualPayout]. *)
Theorem C7_terminal_payout (b : Bet.t) (now : Z) (res : string) :
  Bet.potentialPayout b <> 0%R ->
  let settled := Bet.settle now res b in
  let cancelled := Bet.refund now b in
  ((Bet.status settled = Bet.won
    /\ Bet.actualPayout settled = Bet.potentialPayout settled)
   \/ (Bet.status settled = Bet.lost /\ Bet.actualPayout settled = 0%R))
  /\ (Bet.actualPayout settled = Bet.potentialPayout settled
      <-> Bet.status settled = Bet.won)
  /\ Bet.status cancelled = Bet.refunded
  /\ Bet.actualPayout cancelled = IZR (Bet.amount b).
Proof.
  intros Hpp settled cancelled. subst settled cancelled.
  unfold Bet.settle, Bet.refund.
  destruct (String.eqb (Bet.option b) res); simpl.
  - repeat split; auto.
  - repeat split; auto; try discriminate.
    intros E. exfalso. apply Hpp. now symmetry.
Qed.

Lemma C7_terminal_payout_witness :
  Bet.potentialPayout (Sample.bet 100 1 10 "yes" 100 0.5) <> 0%R
  /\ Bet.status (Bet.settle 60000 "no" (Sample.bet 100 1 10 "yes" 100 0.5))
     = Bet.lost
  /\ Bet.actualPayout
       (Bet.refund 60000 (Sample.bet 100 1 10 "yes" 100 0.5)) = 100%R.
Proof.
  assert (Hpp : Bet.potentialPayout (Sample.bet 100 1 10 "yes" 100 0.5)
                <> 0%R) by (simpl; lra).
  split; [exact Hpp|].
  pose proof (C7_terminal_payout (Sample.bet 100 1 10 "yes" 100 0.5)
                60000 "no" Hpp) as [Hs [_ [_ Hr]]].
  split; [|exact Hr].
  destruct Hs as [[Hw _]|[Hl _]]; [discriminate Hw | exact Hl].
Defined.

(** ** The store *)

Lemma merge_id (paths : list User.Path) (src dst : User.t) :
  User._id (User.merge paths src dst) = User._id dst.
Proof.
  unfold User.merge. revert dst.
  induction paths as [|p paths IH]; intros dst; simpl; auto.
  rewrite IH. destruct p; reflexivity.
Qed.

Lemma find_replace {A} (key : A -> Id) (id : Id) (f : A -> A) (l : list A) :
  (forall x, key x = id -> key (f x) = id) ->
  find (fun x => Nat.eqb (key x) id)
       (replace (fun x => Nat.eqb (key x) id) f l) =
  option_map f (find (fun x => Nat.eqb (key x) id) l).
Proof.
  intros Hkey. induction l as [|x l IH]; simpl; auto.
  destruct (Nat.eqb_spec (key x) id) as [E|E]; simpl.
  - now rewrite (Hkey x E), Nat.eqb_refl.
  - destruct (Nat.eqb_spec (key x) id); [contradiction | assumption].
Qed.

Lemma find_replace_other {A} (key : A -> Id) (id id' : Id) (f : A -> A)
    (l : list A) :
  (forall x, key x = id' -> key (f x) = id') -> id <> id' ->
  find (fun x => Nat.eqb (key x) id)
       (replace (fun x => Nat.eqb (key x) id') f l) =
  find (fun x => Nat.eqb (key x) id) l.
Proof.
  intros Hkey Hne. induction l as [|x l IH]; simpl; auto.
  destruct (Nat.eqb_spec (key x) id') as [E'|E']; simpl.
  - rewrite (Hkey x E').
    destruct (Nat.eqb_spec id' id); [congruence|].
    destruct (Nat.eqb_spec (key x) id); [congruence | reflexivity].
  - destruct (Nat.eqb (key x) id); auto.
Qed.

Lemma find_app_none {A} (p : A -> bool) (l l' : list A) :
  find p l = None -> find p (l ++ l') = find p l'.
Proof.
  induction l as [|x l IH]; simpl; auto.
  destruct (p x); [discriminate | assumption].
Qed.

Lemma findUser_writeUser (paths : list User.Path) (doc : User.t)
    (s : Store) :
  findUser (User._id doc) (writeUser paths doc s) =
  option_map (User.merge paths doc) (findUser (User._id doc) s).
Proof.
  unfold findUser, writeUser. simpl.
  apply (find_replace User._id). intros x Hx. now rewrite merge_id.
Qed.

Lemma findUser_writeUser_other (id : Id) (paths : list User.Path)
    (doc : User.t) (s : Store) :
  id <> User._id doc ->
  findUser id (writeUser paths doc s) = findUser id s.
Proof.
  intros Hne. unfold findUser, writeUser. simpl.
  apply (find_replace_other User._id); auto.
  intros x Hx. now rewrite merge_id.
Qed.

Lemma find_id {A} (key : A -> Id) (id : Id) (l : list A) (x : A) :
  find (fun y => Nat.eqb (key y) id) l = Some x -> key x = id.
Proof.
  intros H. apply find_some in H as [_ H]. now apply Nat.eqb_eq.
Qed.

Lemma findBet_writeBet (doc : Bet.t) (s : Store) :
  findBet (Bet._id doc) (writeBet doc s) = Some doc.
Proof.
  unfold writeBet. destruct (findBet (Bet._id doc) s) eqn:E.
  - unfold findBet in *. simpl.
    rewrite (find_replace Bet._id) by reflexivity. now rewrite E.
  - unfold findBet in *. simpl. rewrite find_app_none by assumption.
    simpl. now rewrite Nat.eqb_refl.
Qed.

Lemma find_app {A} (p : A -> bool) (l l' : list A) :
  find p (l ++ l') =
  match find p l with Some x => Some x | None => find p l' end.
Proof.
  induction l as [|x l IH]; simpl; auto. destruct (p x); auto.
Qed.

Lemma findBet_writeBet_other (id : Id) (doc : Bet.t) (s : Store) :
  id <> Bet._id doc -> findBet id (writeBet doc s) = findBet id s.
Proof.
  intros Hne. unfold writeBet. destruct (findBet (Bet._id doc) s) eqn:E.
  - unfold findBet in *. simpl.
    apply (find_replace_other Bet._id); auto.
  - unfold findBet in *. simpl. rewrite find_app. simpl.
    destruct (Nat.eqb_spec (Bet._id doc) id); [congruence|].
    destruct (find (fun b => Nat.eqb (Bet._id b) id) (bets s)); reflexivity.
Qed.

Lemma users_writeBet (doc : Bet.t) (s : Store) :
  users (writeBet doc s) = users s.
Proof. unfold writeBet. destruct (findBet _ s); reflexivity. Qed.

Lemma markets_writeBet (doc : Bet.t) (s : Store) :
  markets (writeBet doc s) = markets s.
Proof. unfold writeBet. destruct (findBet _ s); reflexivity. Qed.

Lemma transactions_writeBet (doc : Bet.t) (s : Store) :
  transactions (writeBet doc s) = transactions s.
Proof. unfold writeBet. destruct (findBet _ s); reflexivity. Qed.

Lemma findUser_writeBet (id : Id) (doc : Bet.t) (s : Store) :
  findUser id (writeBet doc s) = findUser id s.
Proof. unfold findUser. now rewrite users_writeBet. Qed.

Lemma findMarket_writeBet (id : Id) (doc : Bet.t) (s : Store) :
  findMarket id (writeBet doc s) = findMarket id s.
Proof. unfold findMarket. now rewrite markets_writeBet. Qed.

(** ** [createTransaction] and [updateOdds], case by case *)

Lemma createTransaction_eq (data : Transaction.Data) (s : Store) :
  createTransaction data s =
  match findUser (Transaction.d_userId data) s with
  | None => (Throw (PlainError "User not found"), s)
  | Some user =>
      let after := (User.balance user + Transaction.d_amount data)%R in
      let transaction :=
        Transaction.mk (nextId s)
          (Transaction.d_userId data) (Transaction.d_type data)
          (Transaction.d_amount data) (User.balance user) after
          (Transaction.d_description data)
          (Transaction.d_relatedBetId data)
          (Transaction.d_relatedMarketId data)
          (Transaction.d_adminId data) in
      let s1 := set_nextId (S (nextId s)) s in
      if Rlt_dec after 0
      then (Throw (ValidationError
                     "balance is less than minimum allowed value (0)"), s1)
      else
        let s2 := writeUser [User.balance_] (User.set_balance after user) s1 in
        if Transaction.valid_type (Transaction.d_type data)
        then (Ok transaction,
              set_transactions (transactions s2 ++ [transaction]) s2)
        else (Throw (ValidationError
                       ("`" ++ Transaction.d_type data ++
                        "` is not a valid enum value for path `type`.")), s2)
  end.
Proof.
  unfold createTransaction, bind, gets.
  destruct (findUser (Transaction.d_userId data) s) as [user|] eqn:Hu;
    [|reflexivity].
  cbn zeta. unfold newObjectId, User_save. cbn [existsb is_balance orb andb].
  cbn [User.balance User.set_balance].
  destruct (Rlt_dec (User.balance user + Transaction.d_amount data) 0);
    cbn [andb]; [reflexivity|].
  assert (Hid : User._id user = Transaction.d_userId data)
    by (apply (find_id User._id _ _ _ Hu)).
  cbn [User._id User.set_balance].
  replace (findUser (User._id user) (set_nextId (S (nextId s)) s))
    with (Some user) by (rewrite Hid; symmetry; exact Hu).
  cbn [logUndo]. unfold Transaction_save. cbn [Transaction.type].
  destruct (Transaction.valid_type (Transaction.d_type data)); reflexivity.
Qed.

Lemma Market_updateOdds_ok (this : Market.t) (s : Store) :
  exists s',
    Market_updateOdds this s =
      (Ok (fst (Market.updateOdds (activeBetsOn (Market._id this) s) this)), s')
    /\ users s' = users s /\ bets s' = bets s
    /\ transactions s' = transactions s /\ txlog s' = txlog s
    /\ nextId s' = nextId s.
Proof.
  unfold Market_updateOdds, bind, gets, ret.
  destruct (Market.updateOdds (activeBetsOn (Market._id this) s) this)
    as [this' saved].
  destruct saved; simpl.
  - unfold Market_save.
    destruct (findMarket (Market._id this') s); simpl; eauto 10.
  - eauto 10.
Qed.

(** ** The primitive operations, by their observable effect *)

Lemma replace_none {A} (same : A -> bool) (f : A -> A) (l : list A) :
  find same l = None -> replace same f l = l.
Proof.
  induction l as [|x l IH]; simpl; auto.
  destruct (same x); [discriminate|]. intros H. now rewrite IH.
Qed.

Lemma findUser_ext (id : Id) (s s' : Store) :
  users s' = users s -> findUser id s' = findUser id s.
Proof. unfold findUser. now intros ->. Qed.

Lemma findBet_ext (id : Id) (s s' : Store) :
  bets s' = bets s -> findBet id s' = findBet id s.
Proof. unfold findBet. now intros ->. Qed.

Lemma findMarket_ext (id : Id) (s s' : Store) :
  markets s' = markets s -> findMarket id s' = findMarket id s.
Proof. unfold findMarket. now intros ->. Qed.

Lemma activeBetsOn_ext (id : Id) (s s' : Store) :
  bets s' = bets s -> activeBetsOn id s' = activeBetsOn id s.
Proof. unfold activeBetsOn. now intros ->. Qed.

Lemma Bet_save_spec (opt : SaveOpt) (doc : Bet.t) (s : Store) :
  exists s',
    Bet_save opt doc s = (Ok tt, s')
    /\ users s' = users s /\ markets s' = markets s
    /\ bets s' = bets (writeBet doc s)
    /\ transactions s' = transactions s.
Proof.
  unfold Bet_save. eexists. split; [reflexivity|].
  destruct opt; cbn [logUndo set_txlog users markets bets transactions];
    rewrite ?users_writeBet, ?markets_writeBet, ?transactions_writeBet;
    auto.
Qed.

Lemma Market_save_spec (opt : SaveOpt) (doc : Market.t) (s : Store) :
  exists s',
    Market_save opt doc s = (Ok tt, s')
    /\ users s' = users s /\ bets s' = bets s
    /\ transactions s' = transactions s.
Proof.
  unfold Market_save.
  destruct (findMarket (Market._id doc) s); eexists;
    (split; [reflexivity|]); destruct opt; simpl; auto.
Qed.

(** [user.save()] writes the modified paths or throws at validation. *)
Lemma User_save_cases (opt : SaveOpt) (paths : list User.Path)
    (doc : User.t) (s : Store) :
  match User_save opt paths doc s with
  | (Ok _, s') =>
      ~ (existsb is_balance paths = true /\ (User.balance doc < 0)%R)
      /\ users s' = users (writeUser paths doc s) /\ same_others s s'
  | (Throw _, s') =>
      s' = s /\ existsb is_balance paths = true /\ (User.balance doc < 0)%R
  end.
Proof.
  unfold User_save, same_others.
  destruct (existsb is_balance paths); simpl.
  - destruct (Rlt_dec (User.balance doc) 0); simpl; auto.
    destruct (findUser (User._id doc) s) eqn:F.
    + destruct opt; simpl; intuition.
    + unfold writeUser. simpl. rewrite replace_none by exact F.
      intuition.
  - destruct (findUser (User._id doc) s) eqn:F.
    + destruct opt; simpl; intuition congruence.
    + unfold writeUser. simpl. rewrite replace_none by exact F.
      intuition congruence.
Qed.


(** [createTransaction]: what a successful call leaves behind. *)
Lemma createTransaction_cases (data : Transaction.Data) (s : Store) :
  match createTransaction data s with
  | (Ok tx, s') =>
      exists user,
        findUser (Transaction.d_userId data) s = Some user
        /\ users s' =
           users (writeUser [User.balance_]
                    (User.set_balance
                       (User.balance user + Transaction.d_amount data) user)
                    s)
        /\ markets s' = markets s /\ bets s' = bets s
        /\ transactions s' = (transactions s ++ [tx])%list
        /\ Transaction.userId tx = Transaction.d_userId data
        /\ Transaction.amount tx = Transaction.d_amount data
        /\ Transaction.balanceBefore tx = User.balance user
        /\ Transaction.balanceAfter tx =
           (User.balance user + Transaction.d_amount data)%R
        /\ Transaction.valid_type (Transaction.d_type data) = true
  | (Throw _, s') => bets s' = bets s /\ transactions s' = transactions s
  end.
Proof.
  rewrite createTransaction_eq.
  destruct (findUser (Transaction.d_userId data) s) as [user|] eqn:Hu;
    [|auto].
  cbn zeta.
  destruct (Rlt_dec (User.balance user + Transaction.d_amount data) 0);
    [simpl; auto|].
  destruct (Transaction.valid_type (Transaction.d_type data)) eqn:V;
    [|simpl; auto].
  exists user. simpl. repeat split; auto.
Qed.

Lemma createTransaction_ok (data : Transaction.Data) (s : Store)
    (user : User.t) :
  findUser (Transaction.d_userId data) s = Some user ->
  (0 <= User.balance user + Transaction.d_amount data)%R ->
  Transaction.valid_type (Transaction.d_type data) = true ->
  exists tx s', createTransaction data s = (Ok tx, s').
Proof.
  intros Hu Hb Hv. rewrite createTransaction_eq, Hu. cbn zeta.
  destruct (Rlt_dec _ 0); [lra|]. rewrite Hv. eauto.
Qed.

(** ** One active bet per user and market *)

Lemma activeBetOf_some (userId marketId : Id) (s : Store) (b : Bet.t) :
  In b (bets s) -> Bet.userId b = userId -> Bet.marketId b = marketId ->
  Bet.status b = Bet.active ->
  exists b', activeBetOf userId marketId s = Some b'.
Proof.
  intros Hin Hu Hm Hs. unfold activeBetOf.
  destruct (find _ (bets s)) eqn:F; eauto.
  exfalso. apply (find_none _ _ F) in Hin.
  rewrite Hu, Hm, Hs, !Nat.eqb_refl in Hin. discriminate.
Qed.

(** C9.  If the user already holds an active bet on the market, a further
    [placeBet] on that market is rejected with a client error (400, or 404
    when the market document is gone) and the store is left exactly as it
    was; when the request is otherwise acceptable the rejection is the
    "already have an active bet" one. *)
Theorem C9_second_bet_rejected (now : Z) (user : User.t) (marketId : Id)
    (option : string) (amount : Z) (s : Store) :
  (exists b, In b (bets s) /\ Bet.userId b = User._id user
             /\ Bet.marketId b = marketId /\ Bet.status b = Bet.active) ->
  exists r,
    placeBet now user marketId option amount s = (r, s)
    /\ (status_of r = 400%nat \/ status_of r = 404%nat)
    /\ (option <> "" -> 1 <= amount ->
        ~ (User.balance user < IZR amount)%R ->
        (exists market, findMarket marketId s = Some market
                        /\ Market.isOpen now market = true
                        /\ includes option (Market.options market) = true) ->
        r = Json 400 "You already have an active bet on this market").
Proof.
  intros [b [Hin [Hu [Hm Hs]]]].
  destruct (activeBetOf_some _ _ _ _ Hin Hu Hm Hs) as [b' Hb'].
  unfold placeBet, route, bind, gets, ret.
  destruct (String.eqb_spec option "") as [Eo|Eo]; simpl.
  { eexists; repeat split; eauto. intros; contradiction. }
  destruct (Z.leb_spec 1 amount) as [Ea|Ea]; simpl.
  2:{ eexists; repeat split; eauto. intros; lia. }
  destruct (Rlt_dec (User.balance user) (IZR amount)) as [Eb|Eb].
  { eexists; repeat split; eauto. intros; contradiction. }
  destruct (findMarket marketId s) as [market|] eqn:Em.
  2:{ eexists; repeat split; eauto.
      intros _ _ _ [m [Hm' _]]. discriminate. }
  destruct (Market.isOpen now market) eqn:Eopen; simpl.
  2:{ eexists; repeat split; eauto.
      intros _ _ _ [m [Hm' [Ho _]]]. congruence. }
  destruct (includes option (Market.options market)) eqn:Einc; simpl.
  2:{ eexists; repeat split; eauto.
      intros _ _ _ [m [Hm' [_ Hi]]]. congruence. }
  rewrite Hb'. eexists; repeat split; eauto.
Qed.

Lemma C9_second_bet_rejected_witness :
  (exists b, In b (bets Placed.s1) /\ Bet.userId b = User._id Placed.alice1
             /\ Bet.marketId b = 10%nat /\ Bet.status b = Bet.active)
  /\ exists r,
       placeBet 1000 Placed.alice1 10 "no" 50 Placed.s1 = (r, Placed.s1)
       /\ (status_of r = 400%nat \/ status_of r = 404%nat).
Proof.
  assert (H : exists b, In b (bets Placed.s1)
                        /\ Bet.userId b = User._id Placed.alice1
                        /\ Bet.marketId b = 10%nat
                        /\ Bet.status b = Bet.active).
  { exists Placed.bet1. repeat split. simpl. now left. }
  split; [exact H|].
  destruct (C9_second_bet_rejected 1000 Placed.alice1 10 "no" 50 Placed.s1 H)
    as [r [E [St _]]].
  exists r. split; [exact E | exact St].
Defined.

(** ** Cancellation *)

Lemma users_commit (s : Store) : users (set_txlog [] s) = users s.
Proof. reflexivity. Qed.

(** The atomic unit of a cancellation, on a store where the caller exists
    and holds a non-negative balance: it commits; the bet is stored as
    refunded, one ledger entry of [+amount] is appended, and the stored
    balance has gone up by twice the stake (once in the route, once more in
    [createTransaction]). *)
Lemma cancelBet_transaction_effect (now : Z) (reqUser : User.t) (bet : Bet.t)
    (market : Market.t) (user : User.t) (s : Store) :
  findUser (User._id reqUser) s = Some user ->
  (0 <= User.balance user)%R -> 0 <= Bet.amount bet ->
  exists s' tx,
    cancelBet_transaction now reqUser bet market s
      = (Ok (Bet.refund now bet), s')
    /\ findBet (Bet._id bet) s' = Some (Bet.refund now bet)
    /\ findUser (User._id reqUser) s' =
       Some (User.set_balance
               (User.balance user + IZR (Bet.amount bet)
                + IZR (Bet.amount bet))%R user)
    /\ (forall id, id <> User._id reqUser ->
                   findUser id s' = findUser id s)
    /\ transactions s' = (transactions s ++ [tx])%list
    /\ Transaction.userId tx = User._id reqUser
    /\ Transaction.amount tx = IZR (Bet.amount bet).
Proof.
  intros Hu Hbal Hamt.
  assert (Hid : User._id user = User._id reqUser)
    by (apply (find_id User._id _ _ _ Hu)).
  assert (Hamt' : (0 <= IZR (Bet.amount bet))%R) by (apply IZR_le; lia).
  unfold cancelBet_transaction, bind, gets.
  destruct (Bet_save_spec in_session (Bet.refund now bet) s)
    as [s1 [E1 [U1 [M1 [B1 T1]]]]].
  rewrite E1, (findUser_ext _ _ _ U1), Hu.
  cbn [Bet.refund Bet.amount].
  set (user1 := User.set_balance
                  (User.balance user + IZR (Bet.amount bet))%R user).
  pose proof (User_save_cases in_session [User.balance_] user1 s1) as C2.
  destruct (User_save in_session [User.balance_] user1 s1)
    as [[[]|e2] s2] eqn:E2.
  2:{ exfalso. destruct C2 as [_ [_ C2]]. subst user1. simpl in C2. lra. }
  destruct C2 as [_ [U2 [M2 [B2 T2]]]].
  assert (Hu2 : findUser (User._id reqUser) s2 = Some user1).
  { rewrite (findUser_ext _ _ _ U2).
    replace (User._id reqUser) with (User._id user1)
      by (subst user1; simpl; exact Hid).
    rewrite findUser_writeUser.
    replace (User._id user1) with (User._id reqUser)
      by (subst user1; simpl; symmetry; exact Hid).
    rewrite (findUser_ext _ _ _ U1), Hu. subst user1. reflexivity. }
  set (data := Transaction.mkData _ _ _ _ _ _ _).
  assert (Hd : Transaction.d_userId data = User._id reqUser)
    by (subst data user1; simpl; exact Hid).
  pose proof (createTransaction_cases data s2) as C3.
  destruct (createTransaction data s2) as [[tx|e3] s3] eqn:E3.
  2:{ exfalso.
      destruct (createTransaction_ok data s2 user1) as [tx [s3' E3']].
      - now rewrite Hd.
      - subst data user1. simpl. lra.
      - reflexivity.
      - congruence. }
  destruct C3 as [u3 [F3 [U3 [M3 [B3 [T3 [X1 [X2 [X3 [X4 _]]]]]]]]]].
  rewrite Hd, Hu2 in F3. injection F3 as <-.
  destruct (Market_updateOdds_ok market s3)
    as [s4 [E4 [U4 [B4 [T4 _]]]]].
  rewrite E4. unfold commitTransaction, modify, ret.
  exists (set_txlog [] s4), tx. split; [reflexivity|].
  split.
  { rewrite (findBet_ext _ s4 (set_txlog [] s4)) by reflexivity.
    rewrite (findBet_ext _ _ _ B4), (findBet_ext _ _ _ B3),
            (findBet_ext _ _ _ B2), (findBet_ext _ _ _ B1).
    apply (findBet_writeBet (Bet.refund now bet)). }
  assert (Us : users (set_txlog [] s4) =
               users (writeUser [User.balance_]
                        (User.set_balance
                           (User.balance user1 + Transaction.d_amount data)
                           user1) s2)).
  { rewrite users_commit, U4. exact U3. }
  split.
  { rewrite (findUser_ext _ _ _ Us).
    replace (User._id reqUser)
      with (User._id (User.set_balance
                        (User.balance user1 + Transaction.d_amount data)
                        user1))
      by (subst user1; simpl; exact Hid).
    rewrite findUser_writeUser.
    cbn [User._id User.set_balance].
    replace (User._id user1) with (User._id reqUser)
      by (subst user1; simpl; symmetry; exact Hid).
    rewrite Hu2. subst user1 data. reflexivity. }
  split.
  { intros id Hne. rewrite (findUser_ext _ _ _ Us).
    rewrite findUser_writeUser_other
      by (subst user1; simpl; congruence).
    rewrite (findUser_ext _ _ _ U2).
    rewrite findUser_writeUser_other
      by (subst user1; simpl; congruence).
    apply findUser_ext. exact U1. }
  split.
  { change (transactions (set_txlog [] s4)) with (transactions s4).
    rewrite T4, T3, T2, T1. reflexivity. }
  split; [rewrite X1; exact Hd | rewrite X2; reflexivity].
Qed.




(** The zero-pool branch of [updateOdds] returns before [this.save()], and
    the cancellation route saves the market nowhere else: after the only
    active bet is cancelled, the stored market keeps the prices (and the
    volume) computed when the bet was placed. *)
Lemma zero_pool_fallback_not_saved :
  let s' := snd (cancelBet 60000 Sample.alice 100 Placed.s1) in
  activeBetsOn 10 s' = []
  /\ findMarket 10 s' = Some Placed.rain1.
Proof.
  js_run. split; [reflexivity|].
  unfold Placed.rain1. js_run. reflexivity.
Qed.

(** ** Placement *)

Lemma merge_balance_totalBets (doc pre : User.t) :
  User.merge [User.balance_; User.totalBets_] doc pre =
  User.mk (User._id pre) (User.balance doc) (User.totalWinnings pre)
          (User.totalBets doc) (User.winningBets pre) (User.winRate pre)
          (User.achievements pre).
Proof. reflexivity. Qed.

Lemma merge_balance (doc pre : User.t) :
  User.merge [User.balance_] doc pre = User.set_balance (User.balance doc) pre.
Proof. reflexivity. Qed.

(** What a committed placement leaves behind: the bet is stored; one ledger
    entry of [-amount] is appended; the stored user has one more bet in
    [totalBets] and a balance that went down by twice the stake. *)
Lemma placeBet_transaction_cases (now : Z) (user : User.t)
    (market : Market.t) (marketId : Id) (option : string) (amount : Z)
    (currentOdds : R) (s : Store) :
  match placeBet_transaction now user market marketId option amount
                             currentOdds s with
  | (Ok (bet, user'), s') =>
      bet = Bet.calculatePotentialPayout
              (Bet.mk (nextId s) (User._id user) marketId option amount
                      currentOdds 0 Bet.active now None 0)
      /\ user' = User.set_totalBets (User.totalBets user + 1)%nat
                   (User.set_balance (User.balance user - IZR amount)%R user)
      /\ bets s' = bets (writeBet bet s)
      /\ (forall id, id <> User._id user -> findUser id s' = findUser id s)
      /\ exists pre tx,
           findUser (User._id user) s = Some pre
           /\ findUser (User._id user) s' =
              Some (User.mk (User._id pre)
                      (User.balance user - IZR amount + - IZR amount)%R
                      (User.totalWinnings pre)
                      (User.totalBets user + 1)%nat
                      (User.winningBets pre) (User.winRate pre)
                      (User.achievements pre))
           /\ transactions s' = (transactions s ++ [tx])%list
           /\ Transaction.userId tx = User._id user
           /\ Transaction.amount tx = (- IZR amount)%R
           /\ Transaction.balanceBefore tx = (User.balance user - IZR amount)%R
           /\ Transaction.balanceAfter tx =
              (User.balance user - IZR amount + - IZR amount)%R
  | (Throw _, _) => True
  end.
Proof.
  unfold placeBet_transaction, bind.
  unfold newObjectId at 1. cbn beta iota.
  set (s0 := set_nextId (S (nextId s)) s).
  set (bet := Bet.calculatePotentialPayout _).
  set (user1 := User.set_totalBets _ _).
  pose proof (User_save_cases in_session [User.balance_; User.totalBets_]
                user1 s0) as C1.
  destruct (User_save in_session [User.balance_; User.totalBets_] user1 s0)
    as [[[]|e1] s1] eqn:E1; [|exact I].
  destruct C1 as [_ [U1 [M1 [B1 T1]]]].
  destruct (Bet_save_spec in_session bet s1) as [s2 [E2 [U2 [M2 [B2 T2]]]]].
  rewrite E2.
  set (data := Transaction.mkData _ _ _ _ _ _ _).
  pose proof (createTransaction_cases data s2) as C3.
  destruct (createTransaction data s2) as [[tx|e3] s3] eqn:E3; [|exact I].
  destruct C3 as [u3 [F3 [U3 [M3 [B3 [T3 [X1 [X2 [X3 [X4 _]]]]]]]]]].
  destruct (Market_updateOdds_ok market s3) as [s4 [E4 [U4 [B4 [T4 _]]]]].
  rewrite E4. unfold gets at 1. cbn beta iota.
  match goal with
  | |- context [Market_save in_session ?m s4] =>
      destruct (Market_save_spec in_session m s4) as [s5 [E5 [U5 [B5 T5]]]];
      rewrite E5
  end.
  unfold commitTransaction, modify, ret.
  assert (Hid1 : User._id user1 = User._id user) by reflexivity.
  assert (Hd : Transaction.d_userId data = User._id user) by reflexivity.
  (* the stored user after the route's own save *)
  assert (Hs2 : forall id, findUser id s2 =
                           findUser id (writeUser
                                          [User.balance_; User.totalBets_]
                                          user1 s)).
  { intros id. rewrite (findUser_ext _ _ _ U2), (findUser_ext _ _ _ U1).
    reflexivity. }
  rewrite Hd, Hs2, <- Hid1, findUser_writeUser, Hid1 in F3.
  destruct (findUser (User._id user) s) as [pre|] eqn:Hpre;
    [|discriminate F3].
  simpl in F3. injection F3 as <-.
  assert (Us : forall id,
             findUser id (set_txlog [] s5) =
             findUser id
               (writeUser [User.balance_]
                  (User.set_balance
                     (User.balance
                        (User.merge [User.balance_; User.totalBets_]
                                    user1 pre)
                      + Transaction.d_amount data)
                     (User.merge [User.balance_; User.totalBets_]
                                 user1 pre)) s2)).
  { intros id.
    rewrite (findUser_ext _ s5 (set_txlog [] s5)) by reflexivity.
    rewrite (findUser_ext _ _ _ U5), (findUser_ext _ _ _ U4).
    apply findUser_ext. exact U3. }
  assert (Hpid : User._id pre = User._id user)
    by (apply (find_id User._id _ _ _ Hpre)).
  repeat split.
  - change (bets (set_txlog [] s5)) with (bets s5).
    rewrite B5, B4, B3, B2.
    unfold writeBet. rewrite (findBet_ext _ _ _ B1).
    change (findBet (Bet._id bet) s0) with (findBet (Bet._id bet) s).
    destruct (findBet (Bet._id bet) s); simpl; now rewrite B1.
  - intros id Hne. rewrite Us.
    rewrite findUser_writeUser_other by (simpl; congruence).
    rewrite Hs2. apply findUser_writeUser_other. now rewrite Hid1.
  - exists pre, tx.
    repeat split; auto.
    + rewrite Us.
      replace (User._id user)
        with (User._id
                (User.set_balance
                   (User.balance
                      (User.merge [User.balance_; User.totalBets_]
                                  user1 pre)
                    + Transaction.d_amount data)
                   (User.merge [User.balance_; User.totalBets_] user1 pre)))
        by (simpl; exact Hpid).
      rewrite findUser_writeUser. cbn [User._id User.set_balance].
      rewrite merge_id, Hpid, Hs2, <- Hid1, findUser_writeUser, Hid1, Hpre.
      simpl. rewrite ?Hpid. reflexivity.
    + change (transactions (set_txlog [] s5)) with (transactions s5).
      rewrite T5, T4, T3, T2, T1. reflexivity.
Qed.

(** ** Settlement *)

Lemma settle_won (now : Z) (res : string) (b : Bet.t) :
  Bet.option b = res ->
  Bet.settle now res b =
  Bet.mk (Bet._id b) (Bet.userId b) (Bet.marketId b) (Bet.option b)
         (Bet.amount b) (Bet.oddsAtTime b) (Bet.potentialPayout b)
         Bet.won (Bet.createdAt b) (Some now) (Bet.potentialPayout b).
Proof.
  intros E. unfold Bet.settle. rewrite E, String.eqb_refl. reflexivity.
Qed.

Lemma settle_lost (now : Z) (res : string) (b : Bet.t) :
  Bet.option b <> res ->
  Bet.settle now res b =
  Bet.mk (Bet._id b) (Bet.userId b) (Bet.marketId b) (Bet.option b)
         (Bet.amount b) (Bet.oddsAtTime b) (Bet.potentialPayout b)
         Bet.lost (Bet.createdAt b) (Some now) 0%R.
Proof.
  intros E. unfold Bet.settle.
  destruct (String.eqb_spec (Bet.option b) res); [contradiction|reflexivity].
Qed.

Lemma settle_user_won (bet : Bet.t) (pre : User.t) :
  Bet.status bet = Bet.won ->
  let u := settle_user bet pre in
  User._id u = User._id pre
  /\ User.totalBets u = (User.totalBets pre + 1)%nat
  /\ User.winningBets u = (User.winningBets pre + 1)%nat
  /\ User.balance u = (User.balance pre + Bet.actualPayout bet)%R
  /\ User.winRate u =
     (INR (User.winningBets pre + 1) / INR (User.totalBets pre + 1) * 100)%R.
Proof.
  intros Hst. unfold settle_user. rewrite Hst.
  destruct pre as [id bal tw tb wb wr ach].
  cbn [Bet.Status_eqb User.set_balance User.set_totalWinnings
       User.set_winningBets User.winningBets User.balance
       User.totalWinnings User.totalBets User._id User.winRate
       User.achievements].
  destruct (Nat.eqb (wb + 1) 1); unfold User.addAchievement;
    cbn [User.set_balance User.set_totalWinnings
         User.set_winningBets User.winningBets User.balance
         User.totalWinnings User.totalBets User._id User.winRate
         User.achievements];
    [destruct (existsb _ _)|];
    unfold User.updateWinRate;
    cbn [User.set_totalBets User.winningBets User.balance
         User.totalWinnings User.totalBets User._id User.winRate
         User.achievements];
    rewrite !Nat.add_1_r; cbn [Nat.ltb Nat.leb];
    cbn [User.winningBets User.balance User.totalWinnings User.totalBets
         User._id User.winRate User.achievements];
    repeat split; reflexivity.
Qed.

Lemma merge_all (doc pre : User.t) :
  User._id doc = User._id pre ->
  User.merge [User.balance_; User.totalWinnings_; User.winningBets_;
              User.achievements_; User.totalBets_; User.winRate_] doc pre
  = doc.
Proof. intros E. destruct doc, pre. simpl in *. now subst. Qed.

(** A settlement that commits is the settlement of a winning bet; the
    stored user then has one more bet in [totalBets], and [winRate] is
    [winningBets / totalBets * 100] over the new counters. *)
Lemma settleBet_transaction_cases (now : Z) (market : Market.t)
    (resolution : string) (bet : Bet.t) (s : Store) :
  match settleBet_transaction now market resolution bet s with
  | (Ok _, s') =>
      Bet.option bet = resolution
      /\ bets s' = bets (writeBet (Bet.settle now resolution bet) s)
      /\ (forall id, id <> Bet.userId bet -> findUser id s' = findUser id s)
      /\ exists pre u' tx,
           findUser (Bet.userId bet) s = Some pre
           /\ findUser (Bet.userId bet) s' = Some u'
           /\ User.totalBets u' = (User.totalBets pre + 1)%nat
           /\ User.winningBets u' = (User.winningBets pre + 1)%nat
           /\ User.winRate u' =
              (INR (User.winningBets u') / INR (User.totalBets u') * 100)%R
           /\ User.balance u' =
              (User.balance pre + Bet.potentialPayout bet
               + (Bet.potentialPayout bet - IZR (Bet.amount bet)))%R
           /\ transactions s' = (transactions s ++ [tx])%list
           /\ Transaction.userId tx = Bet.userId bet
           /\ Transaction.amount tx =
              (Bet.potentialPayout bet - IZR (Bet.amount bet))%R
  | (Throw _, s') => transactions s' = transactions s
  end.
Proof.
  unfold settleBet_transaction, bind, gets.
  destruct (Bet_save_spec in_session (Bet.settle now resolution bet) s)
    as [s1 [E1 [U1 [M1 [B1 T1]]]]].
  rewrite E1. rewrite (findUser_ext _ _ _ U1).
  destruct (String.eqb_spec (Bet.option bet) resolution) as [Hopt|Hopt].
  - (* won *)
    rewrite (settle_won now resolution bet Hopt) in *.
    cbn [Bet.userId Bet.status Bet.Status_eqb Bet.actualPayout Bet.amount
         Bet._id].
    destruct (findUser (Bet.userId bet) s) as [pre|] eqn:Hpre;
      [|exact T1].
    set (w := settle_user _ pre).
    destruct (settle_user_won
                (Bet.mk (Bet._id bet) (Bet.userId bet) (Bet.marketId bet)
                   (Bet.option bet) (Bet.amount bet) (Bet.oddsAtTime bet)
                   (Bet.potentialPayout bet) Bet.won (Bet.createdAt bet)
                   (Some now) (Bet.potentialPayout bet)) pre eq_refl)
      as [Wid [Wtb [Wwb [Wbal Wwr]]]].
    fold w in Wid, Wtb, Wwb, Wbal, Wwr. cbn [Bet.actualPayout] in Wbal.
    assert (Hpid : User._id pre = Bet.userId bet)
      by (apply (find_id User._id _ _ _ Hpre)).
    match goal with
    | |- context [User_save in_session ?p w s1] =>
        pose proof (User_save_cases in_session p w s1) as C2;
        destruct (User_save in_session p w s1) as [[[]|e2] s2] eqn:E2
    end.
    2:{ destruct C2 as [-> _]. exact T1. }
    destruct C2 as [_ [U2 [M2 [B2 T2]]]].
    set (data := Transaction.mkData _ _ _ _ _ _ _).
    pose proof (createTransaction_cases data s2) as C3.
    destruct (createTransaction data s2) as [[tx|e3] s3] eqn:E3.
    2:{ destruct C3 as [_ C3]. rewrite C3, T2. exact T1. }
    destruct C3 as [u3 [F3 [U3 [M3 [B3 [T3 [X1 [X2 [X3 [X4 _]]]]]]]]]].
    unfold commitTransaction, modify.
    assert (Hs2 : forall id,
               findUser id s2 =
               findUser id
                 (writeUser
                    [User.balance_; User.totalWinnings_; User.winningBets_;
                     User.achievements_; User.totalBets_; User.winRate_]
                    w s)).
    { intros id. rewrite (findUser_ext _ _ _ U2). apply findUser_ext.
      unfold writeUser. simpl. now rewrite U1. }
    assert (Hw2 : findUser (Bet.userId bet) s2 = Some w).
    { rewrite Hs2. rewrite <- Hpid, <- Wid, findUser_writeUser, Wid, Hpid,
                      Hpre.
      cbn [option_map]. f_equal. apply merge_all. exact Wid. }
    change (Transaction.d_userId data) with (Bet.userId bet) in F3.
    rewrite Hw2 in F3. injection F3 as <-.
    assert (Us : forall id,
               findUser id (set_txlog [] s3) =
               findUser id
                 (writeUser [User.balance_]
                    (User.set_balance
                       (User.balance w + Transaction.d_amount data) w) s2)).
    { intros id. apply findUser_ext. exact U3. }
    split; [exact Hopt|]. split.
    { change (bets (set_txlog [] s3)) with (bets s3).
      rewrite B3, B2. exact B1. }
    split.
    { intros id Hne. rewrite Us.
      rewrite findUser_writeUser_other by (simpl; congruence).
      rewrite Hs2. apply findUser_writeUser_other. congruence. }
    exists pre,
      (User.set_balance (User.balance w + Transaction.d_amount data) w), tx.
    split; [reflexivity|]. split.
    { rewrite Us.
      replace (Bet.userId bet)
        with (User._id (User.set_balance
                          (User.balance w + Transaction.d_amount data) w))
        by (simpl; congruence).
      rewrite findUser_writeUser. cbn [User._id User.set_balance].
      rewrite Wid, Hpid, Hw2. simpl. destruct w; reflexivity. }
    cbn [User.totalBets User.winningBets User.winRate User.balance
         User.set_balance].
    rewrite Wtb, Wwb, Wwr, Wbal.
    repeat split; auto.
    change (transactions (set_txlog [] s3)) with (transactions s3).
    rewrite T3, T2, T1. reflexivity.
  - (* lost: the ledger entry is refused *)
    rewrite (settle_lost now resolution bet Hopt) in *.
    cbn [Bet.userId Bet.status Bet.Status_eqb Bet.actualPayout Bet.amount
         Bet._id].
    destruct (findUser (Bet.userId bet) s) as [pre|] eqn:Hpre;
      [|exact T1].
    match goal with
    | |- context [User_save in_session ?p ?u s1] =>
        pose proof (User_save_cases in_session p u s1) as C2;
        destruct (User_save in_session p u s1) as [[[]|e2] s2] eqn:E2
    end.
    2:{ destruct C2 as [-> _]. exact T1. }
    destruct C2 as [_ [U2 [M2 [B2 T2]]]].
    set (data := Transaction.mkData _ _ _ _ _ _ _).
    pose proof (createTransaction_cases data s2) as C3.
    destruct (createTransaction data s2) as [[tx|e3] s3] eqn:E3.
    + destruct C3 as [u3 [_ [_ [_ [_ [_ [_ [_ [_ [_ V]]]]]]]]]].
      discriminate V.
    + destruct C3 as [_ C3]. rewrite C3, T2. exact T1.
Qed.

(** ** Counters *)



(** ** The ledger *)

Lemma ledgerSum_app (userId : Id) (s s' : Store) (tx : Transaction.t) :
  transactions s' = (transactions s ++ [tx])%list ->
  Transaction.userId tx = userId ->
  ledgerSum userId s' = (ledgerSum userId s + Transaction.amount tx)%R.
Proof.
  intros Ht Hu. unfold ledgerSum, ledgerOf. rewrite Ht, filter_app, map_app.
  rewrite Rsum_app. simpl. rewrite Hu, Nat.eqb_refl. simpl. lra.
Qed.


(** Every cancellation gives the stake back twice and records it once. *)
Lemma cancellation_credits_twice (now : Z) (reqUser : User.t) (bet : Bet.t)
    (market : Market.t) (user : User.t) (s : Store) :
  findUser (User._id reqUser) s = Some user ->
  (0 <= User.balance user)%R -> 0 <= Bet.amount bet ->
  exists s',
    cancelBet_transaction now reqUser bet market s
      = (Ok (Bet.refund now bet), s')
    /\ balanceOf (User._id reqUser) s'
       = Some (User.balance user + 2 * IZR (Bet.amount bet))%R
    /\ ledgerSum (User._id reqUser) s'
       = (ledgerSum (User._id reqUser) s + IZR (Bet.amount bet))%R.
Proof.
  intros Hu Hb Ha.
  destruct (cancelBet_transaction_effect now reqUser bet market user s
              Hu Hb Ha) as [s' [tx [E [_ [Hu' [_ [Ht [Hx Hamt]]]]]]]].
  exists s'. split; [exact E|]. split.
  - unfold balanceOf. rewrite Hu'. simpl. f_equal. lra.
  - rewrite (ledgerSum_app _ s s' tx Ht Hx), Hamt. reflexivity.
Qed.

(** The administrative adjustment has the same shape without any session:
    a credit of 50 moves the balance from 1000 to 1100 and records +50. *)
Lemma adjustBalance_credits_twice :
  let r := adjustBalance 9 1 50 "goodwill credit" Sample.s0 in
  fst r = Json 200 "Balance adjusted successfully"
  /\ balanceOf 1 (snd r) = Some 1100%R
  /\ ledgerSum 1 (snd r) = 50%R.
Proof.
  js_run. repeat split; try reflexivity; try (f_equal; lra); lra.
Qed.



(** ** Resolution *)

(** A losing bet never gets a ledger entry: its settlement throws (the
    entry's type, "loss", is not in the schema's enum, or an earlier step
    failed) and the ledger is as it was. *)
Lemma lost_bet_never_recorded (now : Z) (market : Market.t)
    (resolution : string) (bet : Bet.t) (s : Store) :
  Bet.option bet <> resolution ->
  exists e s',
    settleBet_transaction now market resolution bet s = (Throw e, s')
    /\ transactions s' = transactions s.
Proof.
  intros Hne.
  pose proof (settleBet_transaction_cases now market resolution bet s) as C.
  destruct (settleBet_transaction now market resolution bet s)
    as [[[]|e] s'].
  - destruct C as [E _]. contradiction.
  - eauto.
Qed.

(** In markets.js the identifier [mongoose] is bound by nothing: unless the
    host defines it globally, the first iteration of the settlement loop
    throws before its [try] and no bet is settled. *)
Lemma settleLoop_unbound (env : Env) (now : Z) (market : Market.t)
    (resolution : string) (bet : Bet.t) (rest : list Bet.t) (s : Store) :
  includes "mongoose" (globals env) = false ->
  settleLoop env now market resolution (bet :: rest) s
  = (Throw (ReferenceError "mongoose is not defined"), s).
Proof.
  intros H. cbn [settleLoop]. unfold bind, identifier.
  replace (includes "mongoose" markets_js_scope) with false by reflexivity.
  rewrite H. reflexivity.
Qed.

(** Where [mongoose] does resolve, no exception leaves the loop: a failed
    settlement is caught and the next bet is processed. *)
Lemma settleLoop_bound (env : Env) (now : Z) (market : Market.t)
    (resolution : string) (activeBets : list Bet.t) (s : Store) :
  includes "mongoose" (globals env) = true ->
  exists s', settleLoop env now market resolution activeBets s = (Ok tt, s').
Proof.
  intros H. revert s.
  induction activeBets as [|bet rest IH]; intros s; cbn [settleLoop].
  - unfold ret. eauto.
  - unfold bind, identifier. rewrite H, orb_true_r.
    unfold ret, startTransaction, modify, try_catch.
    destruct (settleBet_transaction now market resolution bet
                (set_txlog [] s)) as [[[]|e] s1].
    + apply IH.
    + unfold abortTransaction, modify. apply IH.
Qed.

(** C2, at the failing input.  Alice's only bet is on "yes" and the market
    resolves to "no".  [Bet.settle] does mark the bet lost with a payout
    of 0, but the settlement then asks [createTransaction] for an entry of
    [actualPayout - amount = -100] of type "loss": the balance goes from
    800 to 700, the entry is refused by the schema, and the ledger gets no
    entry at all.  This is so in the loop body by itself and in the whole
    route on a host that defines [mongoose]. *)
Theorem C2_lost_bet_charged_again :
  Bet.status (Bet.settle 1000 "no" Placed.bet1) = Bet.lost
  /\ Bet.actualPayout (Bet.settle 1000 "no" Placed.bet1) = 0%R
  /\ fst (settleBet_transaction 1000 Placed.rain1 "no" Placed.bet1 Placed.s1)
     = Throw (ValidationError
                "`loss` is not a valid enum value for path `type`.")
  /\ balanceOf 1 Placed.s1 = Some 800%R
  /\ balanceOf 1
       (snd (settleBet_transaction 1000 Placed.rain1 "no" Placed.bet1
                                   Placed.s1)) = Some 700%R
  /\ transactions
       (snd (settleBet_transaction 1000 Placed.rain1 "no" Placed.bet1
                                   Placed.s1)) = transactions Placed.s1
  /\ balanceOf 1 (snd (resolveMarket with_mongoose 1000 10 "no" Placed.s1))
     = Some 700%R
  /\ transactions (snd (resolveMarket with_mongoose 1000 10 "no" Placed.s1))
     = transactions Placed.s1.
Proof.
  split; [reflexivity|]. split; [reflexivity|].
  js_run. repeat split; try reflexivity; f_equal; lra.
Qed.

(** The sample store with three bets is what the route builds. *)
Lemma placeBet_bob :
  placeBet 1 Sample.bob 10 "no" 50 Placed.s1
  = (Json 500 "Server error", Crowd.s2).
Proof.
  js_run. unfold Crowd.s2, Crowd.bob1, Crowd.entry2. js_run.
  repeat (f_equal; try lra).
Qed.

Lemma placeBet_carol :
  placeBet 2 Sample.carol 10 "yes" 30 Crowd.s2
  = (Json 500 "Server error", Crowd.s3).
Proof.
  js_run. unfold Crowd.s3, Crowd.carol1, Crowd.entry3. js_run.
  repeat (f_equal; try lra).
Qed.

(** Whatever the store, on a host without a global [mongoose] a resolution
    with at least one active bet saves the resolved market and nothing
    else, and answers 500. *)
Lemma resolveMarket_unbound (env : Env) (now : Z) (marketId : Id)
    (resolution : string) (s : Store) (market : Market.t) :
  includes "mongoose" (globals env) = false ->
  resolution <> "" ->
  findMarket marketId s = Some market ->
  Market.status market = Market.open \/ Market.status market = Market.closed ->
  includes resolution (Market.options market) = true ->
  activeBetsOn marketId s <> [] ->
  resolveMarket env now marketId resolution s
  = (Json 500 "Server error",
     writeMarket (Market.resolve now resolution market) s).
Proof.
  intros Henv Hres Hm Hst Hinc Hbets.
  assert (Hid : Market._id market = marketId)
    by (apply (find_id Market._id _ _ _ Hm)).
  unfold resolveMarket, route, bind, gets, ret.
  destruct (String.eqb_spec resolution ""); [contradiction|].
  rewrite Hm. cbn beta iota.
  replace (negb (Market.Status_eqb (Market.status market) Market.open)
           && negb (Market.Status_eqb (Market.status market) Market.closed))
    with false by (destruct Hst as [-> | ->]; reflexivity).
  rewrite Hinc. cbn [negb].
  unfold Market_save. cbn [Market._id Market.resolve]. rewrite Hid, Hm.
  cbn [logUndo].
  replace (activeBetsOn marketId
             (writeMarket (Market.resolve now resolution market) s))
    with (activeBetsOn marketId s) by reflexivity.
  destruct (activeBetsOn marketId s) as [|bet rest]; [contradiction|].
  now rewrite settleLoop_unbound.
Qed.

(** C3, at the failing input.  Three active bets on the market; the route,
    run on a plain Node.js host, marks the market resolved, then throws at
    [mongoose.startSession()] for the first bet: the answer is a 500, and
    the three bets are all still active, nobody is paid and nothing is
    recorded. *)
Theorem C3_resolution_settles_nothing :
  let s := Crowd.s3 in
  let s' := snd (resolveMarket node 1000 10 "yes" s) in
  map Bet.status (bets s) = [Bet.active; Bet.active; Bet.active]
  /\ fst (resolveMarket node 1000 10 "yes" s) = Json 500 "Server error"
  /\ option_map Market.status (findMarket 10 s') = Some Market.resolved
  /\ map Bet.status (bets s') = [Bet.active; Bet.active; Bet.active]
  /\ users s' = users s
  /\ transactions s' = transactions s.
Proof.
  cbv zeta.
  rewrite (resolveMarket_unbound node 1000 10 "yes" Crowd.s3 Crowd.rain3);
    try reflexivity; try discriminate.
  - repeat split; reflexivity.
  - now left.
Qed.

(** The same resolution on a host that defines [mongoose]: the two winners
    are settled, the loser's settlement fails and is caught, and the answer
    is a 200. *)
Lemma resolution_with_mongoose :
  let s' := snd (resolveMarket with_mongoose 1000 10 "yes" Crowd.s3) in
  fst (resolveMarket with_mongoose 1000 10 "yes" Crowd.s3)
    = Json 200 "Market resolved successfully"
  /\ map Bet.status (bets s') = [Bet.won; Bet.active; Bet.won]
  /\ length (transactions s') = 5%nat.
Proof.
  js_run. repeat split; reflexivity.
Qed.

(** ** What the ledger records of a history *)

Lemma ledgerSum_app_other (userId : Id) (s s' : Store) (tx : Transaction.t) :
  transactions s' = (transactions s ++ [tx])%list ->
  Transaction.userId tx <> userId ->
  ledgerSum userId s' = ledgerSum userId s.
Proof.
  intros Ht Hu. unfold ledgerSum, ledgerOf. rewrite Ht, filter_app, map_app.
  rewrite Rsum_app. simpl.
  destruct (Nat.eqb_spec (Transaction.userId tx) userId); [contradiction|].
  simpl. lra.
Qed.

Lemma committed_moves_twice (s s' : Store) (u : Id) (b : R) :
  committed s s' -> balanceOf u s = Some b ->
  exists b', balanceOf u s' = Some b'
             /\ (b' - b = 2 * (ledgerSum u s' - ledgerSum u s))%R.
Proof.
  intros C Hb. destruct C as
      [now user market marketId option amount odds bet user' s s' Hfresh Hrun
      |now reqUser bet market user s s' Hu Hbal Hamt Hrun].
  - pose proof (placeBet_transaction_cases now user market marketId option
                  amount odds s) as P.
    rewrite Hrun in P.
    destruct P as [_ [_ [_ [Hother [pre [tx [Hpre [Hu1 [Ht [Hx [Ha _]]]]]]]]]]].
    destruct (Nat.eq_dec u (User._id user)) as [E|E].
    + subst u. unfold balanceOf in *. rewrite Hfresh in Hb.
      injection Hb as <-. rewrite Hu1. simpl. eexists. split; [reflexivity|].
      rewrite (ledgerSum_app _ s s' tx Ht Hx), Ha. lra.
    + unfold balanceOf in *. rewrite (Hother u E), Hb.
      eexists. split; [reflexivity|].
      rewrite (ledgerSum_app_other u s s' tx Ht) by congruence. lra.
  - destruct (cancelBet_transaction_effect now reqUser bet market user s
                Hu Hbal Hamt)
      as [s'' [tx [E [_ [Hu' [Hother [Ht [Hx Ha]]]]]]]].
    rewrite Hrun in E. injection E as <-.
    destruct (Nat.eq_dec u (User._id reqUser)) as [E|E].
    + subst u. unfold balanceOf in *. rewrite Hu in Hb.
      injection Hb as <-. rewrite Hu'. simpl. eexists. split; [reflexivity|].
      rewrite (ledgerSum_app _ s s' tx Ht Hx), Ha. lra.
    + unfold balanceOf in *. rewrite (Hother u E), Hb.
      eexists. split; [reflexivity|].
      rewrite (ledgerSum_app_other u s s' tx Ht) by congruence. lra.
Qed.

(** Over any history of committed placements and cancellations, every
    balance moves by exactly twice what the ledger records for its user:
    the two agree only where the recorded amounts cancel out. *)
Lemma history_moves_twice (s s' : Store) (u : Id) (b : R) :
  history s s' -> balanceOf u s = Some b ->
  exists b', balanceOf u s' = Some b'
             /\ (b' - b = 2 * (ledgerSum u s' - ledgerSum u s))%R.
Proof.
  intros H. revert b. induction H as [s|s s1 s2 _ IH C]; intros b Hb.
  - exists b. split; [assumption | lra].
  - destruct (IH b Hb) as [b1 [Hb1 E1]].
    destruct (committed_moves_twice s1 s2 u b1 C Hb1) as [b2 [Hb2 E2]].
    exists b2. split; [assumption | lra].
Qed.
(** * Further properties of the code *)

(** ** Pricing *)











(** ** The user's counters *)

(** X5.  [addAchievement] never records an achievement twice: afterwards the
    achievement is there, every earlier one is kept, a list without
    duplicates stays without duplicates, and a second call changes
    nothing. *)
Theorem addAchievement_once (a : string) (u : User.t) :
  In a (User.achievements (User.addAchievement a u))
  /\ (forall b, In b (User.achievements u) ->
                In b (User.achievements (User.addAchievement a u)))
  /\ (NoDup (User.achievements u) ->
      NoDup (User.achievements (User.addAchievement a u)))
  /\ User.addAchievement a (User.addAchievement a u)
     = User.addAchievement a u.
Proof.
  assert (Hex : forall l, existsb (String.eqb a) l = true <-> In a l).
  { intros l. rewrite existsb_exists. split.
    - intros [x [Hin Hx]]. apply String.eqb_eq in Hx. now subst.
    - intros Hin. exists a. split; [exact Hin | apply String.eqb_refl]. }
  unfold User.addAchievement.
  destruct (existsb (String.eqb a) (User.achievements u)) eqn:E.
  - rewrite E. repeat split; auto. now apply Hex.
  - cbn [User.achievements].
    assert (Hin : In a (User.achievements u ++ [a])%list)
      by (apply in_or_app; right; now left).
    rewrite (proj2 (Hex _) Hin).
    repeat split; auto.
    + intros b Hb. apply in_or_app. now left.
    + intros Hnd.
      apply (Permutation_NoDup (l := a :: User.achievements u)).
      * change (a :: User.achievements u)
          with ([a] ++ User.achievements u)%list.
        apply Permutation_app_comm.
      * constructor; [|exact Hnd].
        intros Hc. apply Hex in Hc. congruence.
Qed.

(** X6.  The user update of the settlement loop keeps [winningBets] at or below
    [totalBets], and the win rate it leaves is
    [winningBets / totalBets * 100] over the new counters, a percentage
    between 0 and 100. *)
Theorem settle_user_win_rate (bet : Bet.t) (u : User.t) :
  (User.winningBets u <= User.totalBets u)%nat ->
  let u' := settle_user bet u in
  (User.winningBets u' <= User.totalBets u')%nat
  /\ User.winRate u'
     = (INR (User.winningBets u') / INR (User.totalBets u') * 100)%R
  /\ (0 <= User.winRate u' <= 100)%R.
Proof.
  intros Hle. cbv zeta.
  assert (Hgen : forall v : User.t,
             (User.winningBets v <= User.totalBets v + 1)%nat ->
             let v' := User.updateWinRate
                         (User.set_totalBets (User.totalBets v + 1)%nat v) in
             User.winningBets v' = User.winningBets v
             /\ User.totalBets v' = (User.totalBets v + 1)%nat
             /\ User.winRate v'
                = (INR (User.winningBets v) / INR (User.totalBets v + 1)
                   * 100)%R).
  { intros v _. unfold User.updateWinRate.
    cbn [User.set_totalBets User.totalBets User.winningBets].
    replace (0 <? User.totalBets v + 1)%nat with true
      by (symmetry; apply Nat.ltb_lt; lia).
    repeat split. }
  assert (Hrange : forall w t : nat, (w <= t + 1)%nat ->
             (0 <= INR w / INR (t + 1) * 100 <= 100)%R).
  { intros w t Hwt.
    assert (T : (0 < INR (t + 1))%R) by (apply lt_0_INR; lia).
    assert (W : (0 <= INR w)%R) by apply pos_INR.
    assert (WT : (INR w <= INR (t + 1))%R) by (now apply le_INR).
    split.
    - apply Rmult_le_pos; [|lra]. apply Rmult_le_pos; [exact W|].
      left. now apply Rinv_0_lt_compat.
    - apply (Rmult_le_reg_r (INR (t + 1))); [exact T|].
      unfold Rdiv. replace (INR w * / INR (t + 1) * 100 * INR (t + 1))%R
        with (INR w * 100 * (/ INR (t + 1) * INR (t + 1)))%R by ring.
      rewrite Rinv_l by lra. lra. }
  unfold settle_user.
  destruct (Bet.Status_eqb (Bet.status bet) Bet.won).
  - set (v := if Nat.eqb _ 1 then _ else _).
    assert (Hv : User.winningBets v = (User.winningBets u + 1)%nat
                 /\ User.totalBets v = User.totalBets u).
    { subst v.
      cbn [User.set_balance User.set_totalWinnings User.set_winningBets
           User.winningBets User.totalBets User.balance User.totalWinnings
           User._id User.winRate User.achievements].
      destruct (Nat.eqb (User.winningBets u + 1) 1).
      - unfold User.addAchievement. destruct (existsb _ _); split; reflexivity.
      - split; reflexivity. }
    destruct Hv as [Hw Ht].
    destruct (Hgen v ltac:(lia)) as [G1 [G2 G3]].
    rewrite G1, G2, G3, Hw, Ht.
    split; [lia|]. split; [reflexivity|]. apply Hrange. lia.
  - destruct (Hgen u ltac:(lia)) as [G1 [G2 G3]].
    rewrite G1, G2, G3.
    split; [lia|]. split; [reflexivity|]. apply Hrange. lia.
Qed.

Lemma settle_user_win_rate_witness :
  (User.winningBets Placed.alice1 <= User.totalBets Placed.alice1)%nat
  /\ (0 <= User.winRate
             (settle_user (Bet.settle 1000 "yes" Placed.bet1) Placed.alice1)
        <= 100)%R.
Proof.
  assert (H : (User.winningBets Placed.alice1
               <= User.totalBets Placed.alice1)%nat) by (simpl; lia).
  split; [exact H|].
  exact (proj2 (proj2 (settle_user_win_rate
                         (Bet.settle 1000 "yes" Placed.bet1)
                         Placed.alice1 H))).
Defined.




(** ** [Transaction.createTransaction] *)

Lemma findUser_set_balance_written (user : User.t) (b : R) (id : Id)
    (s : Store) :
  findUser id s = Some user ->
  findUser id (writeUser [User.balance_] (User.set_balance b user) s)
  = Some (User.set_balance b user).
Proof.
  intros Hu.
  assert (Hid : User._id user = id) by (apply (find_id User._id _ _ _ Hu)).
  replace id with (User._id (User.set_balance b user)) at 1
    by (simpl; exact Hid).
  rewrite findUser_writeUser. cbn [User._id User.set_balance].
  rewrite Hid, Hu. reflexivity.
Qed.



(** X9.  A type outside the schema's enumeration is only noticed when the entry
    is saved, after the balance has been written: the call throws, the
    ledger gets no entry, and the stored balance has moved by the amount
    all the same. *)
Theorem createTransaction_unknown_type_moves_balance
    (data : Transaction.Data) (s : Store) (user : User.t) :
  findUser (Transaction.d_userId data) s = Some user ->
  (0 <= User.balance user + Transaction.d_amount data)%R ->
  Transaction.valid_type (Transaction.d_type data) = false ->
  exists e s',
    createTransaction data s = (Throw e, s')
    /\ transactions s' = transactions s
    /\ balanceOf (Transaction.d_userId data) s'
       = Some (User.balance user + Transaction.d_amount data)%R.
Proof.
  intros Hu Hb Hv. rewrite createTransaction_eq, Hu. cbn zeta.
  destruct (Rlt_dec _ 0); [lra|]. rewrite Hv.
  do 2 eexists. split; [reflexivity|]. split; [reflexivity|].
  unfold balanceOf.
  change (findUser (Transaction.d_userId data) s)
    with (findUser (Transaction.d_userId data) (set_nextId (S (nextId s)) s))
    in Hu.
  rewrite (findUser_set_balance_written _ _ _ _ Hu). reflexivity.
Qed.

Lemma createTransaction_unknown_type_moves_balance_witness :
  let data := Transaction.mkData 1 "loss" (-100) "Bet lost" None None None in
  findUser (Transaction.d_userId data) Sample.s0 = Some Sample.alice
  /\ Transaction.valid_type (Transaction.d_type data) = false
  /\ exists e s',
       createTransaction data Sample.s0 = (Throw e, s')
       /\ transactions s' = transactions Sample.s0
       /\ balanceOf 1 s' = Some (1000 + -100)%R.
Proof.
  cbv zeta. split; [reflexivity|]. split; [reflexivity|].
  exact (createTransaction_unknown_type_moves_balance
           (Transaction.mkData 1 "loss" (-100) "Bet lost" None None None)
           Sample.s0 Sample.alice eq_refl ltac:(simpl; lra) eq_refl).
Defined.

(** X10.  An amount that would take the balance below zero is refused by the
    user schema's [min: 0] before anything is written: the call throws a
    validation error and only an ObjectId has been used up. *)
Theorem createTransaction_refuses_overdraft (data : Transaction.Data)
    (s : Store) (user : User.t) :
  findUser (Transaction.d_userId data) s = Some user ->
  (User.balance user + Transaction.d_amount data < 0)%R ->
  createTransaction data s
  = (Throw (ValidationError "balance is less than minimum allowed value (0)"),
     set_nextId (S (nextId s)) s).
Proof.
  intros Hu Hb. rewrite createTransaction_eq, Hu. cbn zeta.
  destruct (Rlt_dec _ 0); [reflexivity | contradiction].
Qed.

Lemma createTransaction_refuses_overdraft_witness :
  let data :=
    Transaction.mkData 1 "withdrawal" (-1500) "Cash out" None None None in
  findUser (Transaction.d_userId data) Sample.s0 = Some Sample.alice
  /\ users (snd (createTransaction data Sample.s0)) = users Sample.s0
  /\ transactions (snd (createTransaction data Sample.s0)) = [].
Proof.
  cbv zeta. split; [reflexivity|].
  rewrite (createTransaction_refuses_overdraft
             (Transaction.mkData 1 "withdrawal" (-1500) "Cash out"
                None None None)
             Sample.s0 Sample.alice eq_refl ltac:(simpl; lra)).
  split; reflexivity.
Defined.

(** ** Placing a bet: what the route answers *)

(** The body of the inner [try] of [POST /] never completes: a committed
    placement is followed by [new WebSocketService()], which throws. *)
Lemma placeBet_try_throws (now : Z) (user : User.t) (market : Market.t)
    (marketId : Id) (option : string) (amount : Z) (currentOdds : R)
    (k : Bet.t * User.t -> M unit) (s : Store) :
  exists e s',
    (placed <- placeBet_transaction now user market marketId option amount
                                    currentOdds ;;
     k placed ;;
     WebSocketService.new None ;;
     ret (Json 201 "Bet placed successfully")) s = (Throw e, s').
Proof.
  unfold bind.
  destruct (placeBet_transaction now user market marketId option amount
              currentOdds s) as [[placed|e] s1]; [|eauto].
  destruct (k placed s1) as [[[]|e] s2]; [|eauto].
  unfold WebSocketService.new, throw. eauto.
Qed.

(** X11.  [POST /] never answers 201.  Its answer is a 400 or a 404, and
    then the store is exactly as it was, or it is the 500 of the outer
    [catch]. *)
Theorem placeBet_never_confirms (now : Z) (user : User.t) (marketId : Id)
    (option : string) (amount : Z) (s : Store) :
  match placeBet now user marketId option amount s with
  | (r, s') =>
      ((status_of r = 400%nat \/ status_of r = 404%nat) /\ s' = s)
      \/ r = Json 500 "Server error"
  end.
Proof.
  unfold placeBet, route.
  destruct (String.eqb option "" || negb (1 <=? amount));
    [left; simpl; auto|].
  destruct (Rlt_dec (User.balance user) (IZR amount));
    [left; simpl; auto|].
  unfold bind at 1, gets at 1.
  destruct (findMarket marketId s) as [market|]; [|left; simpl; auto].
  destruct (negb (Market.isOpen now market)); [left; simpl; auto|].
  destruct (negb (includes option (Market.options market)));
    [left; simpl; auto|].
  unfold bind at 1, gets at 1.
  destruct (activeBetOf (User._id user) marketId s);
    [left; simpl; auto|].
  destruct (Obj.get option (Market.currentOdds market)) as [odds|];
    [|left; simpl; auto].
  destruct (Market.falsy (Some odds)); [left; simpl; auto|].
  unfold bind at 1, startTransaction, modify, try_catch.
  match goal with
  | |- context [bind (placeBet_transaction _ _ _ _ _ _ _) ?f ?st] =>
      destruct (placeBet_try_throws now user market marketId option amount
                  odds
                  (fun placed =>
                     let (bet, user) := placed in
                     if Nat.eqb (User.totalBets user) 1
                     then User_save no_session
                            (if includes "first_bet" (User.achievements user)
                             then [] else [User.achievements_])
                            (User.addAchievement "first_bet" user)
                     else ret tt) st) as [e [s' E]]
  end.
  match goal with
  | |- context [bind (placeBet_transaction ?a ?b ?c ?d ?e' ?f ?g) ?k ?st] =>
      replace (bind (placeBet_transaction a b c d e' f g) k st)
        with (@Throw Response e, s')
  end.
  - right. reflexivity.
  - rewrite <- E. unfold bind.
    destruct (placeBet_transaction _ _ _ _ _ _ _ _) as [[[bet u]|e1] s1];
      reflexivity.
Qed.






(** ** A stake of more than half the balance *)





(** ** Cancelling a bet *)

(** X14.  [DELETE /:id] rejects with a 400, a 403 or a 404 without touching the
    store, and it accepts (200) only the caller's own active bet, on a
    market that is open, at most five minutes after the placement;
    anything else is the 500 of the outer [catch]. *)
Theorem cancelBet_answers (now : Z) (reqUser : User.t) (betId : Id)
    (s : Store) :
  match cancelBet now reqUser betId s with
  | (r, s') =>
      ((status_of r = 400%nat \/ status_of r = 403%nat
        \/ status_of r = 404%nat) /\ s' = s)
      \/ r = Json 500 "Server error"
      \/ (r = Json 200 "Bet cancelled successfully"
          /\ exists bet market,
               findBet betId s = Some bet
               /\ Bet.userId bet = User._id reqUser
               /\ Bet.status bet = Bet.active
               /\ findMarket (Bet.marketId bet) s = Some market
               /\ Market.isOpen now market = true
               /\ now - Bet.createdAt bet <= 300000)
  end.
Proof.
  unfold cancelBet, route. unfold bind at 1, gets at 1.
  destruct (findBet betId s) as [bet|] eqn:Hbet; [|left; simpl; auto].
  destruct (Nat.eqb_spec (Bet.userId bet) (User._id reqUser)) as [Hown|Hown];
    cbn [negb]; [|left; simpl; auto].
  destruct (Bet.status bet) eqn:Hst; cbn [Bet.Status_eqb negb];
    try (left; simpl; auto; fail).
  unfold bind at 1, gets at 1.
  destruct (findMarket (Bet.marketId bet) s) as [market|] eqn:Hm;
    [|right; left; reflexivity].
  destruct (Market.isOpen now market) eqn:Hopen; cbn [negb];
    [|left; simpl; auto].
  change (5 * 60 * 1000) with 300000.
  destruct (Z.gtb_spec (now - Bet.createdAt bet) 300000) as [Hage|Hage];
    [left; simpl; auto|].
  unfold bind at 1, startTransaction, modify, try_catch.
  unfold bind at 1.
  destruct (cancelBet_transaction now reqUser bet market (set_txlog [] s))
    as [[b'|e] s1].
  - right; right. split; [reflexivity|]. exists bet, market.
    repeat split; auto.
  - right; left. reflexivity.
Qed.



(** ** Resolving a market *)

Lemma txlog_writeBet (doc : Bet.t) (s : Store) :
  txlog (writeBet doc s) = txlog s.
Proof. unfold writeBet. destruct (findBet _ s); reflexivity. Qed.

(** Undoing a session's writes touches neither the ledger nor, unless a
    market was written through the session, the markets. *)
Lemma undo_frame (log : list Undo) (s : Store) :
  transactions (fold_left (fun st u => undo u st) log s) = transactions s
  /\ (Forall (fun u => match u with UndoMarket _ => False | _ => True end)
             log ->
      markets (fold_left (fun st u => undo u st) log s) = markets s).
Proof.
  revert s. induction log as [|u log IH]; intros s; [split; reflexivity|].
  cbn [fold_left]. destruct (IH (undo u s)) as [T M]. split.
  - rewrite T. destruct u as [paths pre|id [pre|]|pre]; simpl;
      rewrite ?transactions_writeBet; reflexivity.
  - intros F. inversion F as [|u' log' Hu Hlog]; subst.
    rewrite (M Hlog). destruct u as [paths pre|id [pre|]|pre]; simpl;
      rewrite ?markets_writeBet; try reflexivity. contradiction.
Qed.

(** One settlement attempt, committed or not, leaves the markets alone and
    logs no market write. *)
Lemma settleBet_transaction_frame (now : Z) (market : Market.t)
    (resolution : string) (bet : Bet.t) (s : Store) :
  txlog s = [] ->
  match settleBet_transaction now market resolution bet s with
  | (_, s') =>
      markets s' = markets s
      /\ Forall (fun u => match u with UndoMarket _ => False | _ => True end)
                (txlog s')
  end.
Proof.
  intros Hlog. unfold settleBet_transaction, bind, gets.
  unfold Bet_save at 1. cbn [logUndo].
  set (b := Bet.settle now resolution bet).
  set (s1 := set_txlog _ (writeBet b s)).
  assert (M1 : markets s1 = markets s)
    by (subst s1; simpl; apply markets_writeBet).
  assert (L1 : Forall (fun u => match u with
                                | UndoMarket _ => False | _ => True end)
                      (txlog s1)).
  { subst s1. simpl. rewrite txlog_writeBet, Hlog. repeat constructor. }
  destruct (findUser (Bet.userId b) s1) as [user|]; [|split; assumption].
  set (paths := if Bet.Status_eqb (Bet.status b) Bet.won then _ else _).
  set (u := settle_user b user).
  unfold User_save.
  destruct (existsb is_balance paths
            && (if Rlt_dec (User.balance u) 0 then true else false));
    [split; assumption|].
  set (s2 := match findUser (User._id u) s1 with
             | Some pre => _ | None => _ end).
  assert (M2 : markets (snd s2) = markets s
               /\ Forall (fun u => match u with
                                   | UndoMarket _ => False | _ => True end)
                         (txlog (snd s2))
               /\ exists x, s2 = (Ok tt, x)).
  { subst s2. destruct (findUser (User._id u) s1); simpl.
    - split; [exact M1|]. split; [constructor; [exact I | exact L1]|eauto].
    - split; [exact M1|]. split; [exact L1 | eauto]. }
  destruct M2 as [M2 [L2 [x Ex]]]. rewrite Ex in *. cbn [snd] in M2, L2.
  rewrite createTransaction_eq.
  destruct (findUser _ x) as [w|]; [|split; assumption].
  cbn zeta.
  destruct (Rlt_dec _ 0); [split; assumption|].
  destruct (Transaction.valid_type _); [|split; assumption].
  unfold commitTransaction, modify. simpl. split; [exact M2 | constructor].
Qed.

(** The settlement loop never writes a market, and what it adds to the
    ledger is at most one entry for each bet on the winning option. *)
Lemma settleLoop_frame (env : Env) (now : Z) (market : Market.t)
    (resolution : string) (activeBets : list Bet.t) (s : Store) :
  match settleLoop env now market resolution activeBets s with
  | (_, s') =>
      markets s' = markets s
      /\ exists new,
           transactions s' = (transactions s ++ new)%list
           /\ (length new <= length (filter (on resolution) activeBets))%nat
  end.
Proof.
  revert s. induction activeBets as [|bet rest IH]; intros s.
  - cbn [settleLoop]. unfold ret. split; [reflexivity|].
    exists []. rewrite app_nil_r. split; [reflexivity | simpl; lia].
  - cbn [settleLoop]. unfold bind at 1, identifier.
    destruct (includes "mongoose" markets_js_scope
              || includes "mongoose" (globals env)).
    2:{ unfold throw. split; [reflexivity|]. exists [].
        rewrite app_nil_r. split; [reflexivity | simpl; lia]. }
    unfold ret. unfold bind at 1, startTransaction, modify.
    unfold bind at 1, try_catch.
    pose proof (settleBet_transaction_frame now market resolution bet
                  (set_txlog [] s) eq_refl) as F.
    pose proof (settleBet_transaction_cases now market resolution bet
                  (set_txlog [] s)) as C.
    destruct (settleBet_transaction now market resolution bet
                (set_txlog [] s)) as [[[]|e] s1].
    + destruct F as [M1 _].
      destruct C
        as [Hwin [_ [_ [pre [u' [tx [_ [_ [_ [_ [_ [_ [T1 _]]]]]]]]]]]]].
      specialize (IH s1).
      destruct (settleLoop env now market resolution rest s1) as [r s'].
      destruct IH as [M [new [T L]]]. split; [now rewrite M|].
      exists (tx :: new). split.
      * rewrite T, T1. cbn [transactions set_txlog].
        now rewrite <- app_assoc.
      * cbn [filter]. unfold on at 1. rewrite Hwin, String.eqb_refl.
        simpl. lia.
    + destruct F as [M1 L1]. unfold abortTransaction, modify.
      destruct (undo_frame (txlog s1) s1) as [Tu Mu].
      specialize (IH (set_txlog []
                        (fold_left (fun st u => undo u st) (txlog s1) s1))).
      destruct (settleLoop env now market resolution rest _) as [r s'].
      destruct IH as [M [new [T L]]]. split.
      * rewrite M. cbn [markets set_txlog]. now rewrite (Mu L1).
      * exists new. split.
        -- rewrite T. cbn [transactions set_txlog]. now rewrite Tu, C.
        -- cbn [filter]. destruct (on resolution bet); simpl; lia.
Qed.

Lemma findMarket_written (market doc : Market.t) (marketId : Id)
    (s : Store) :
  findMarket marketId s = Some market -> Market._id doc = marketId ->
  findMarket marketId (writeMarket doc s) = Some doc.
Proof.
  intros Hm Hid. unfold findMarket, writeMarket. simpl. rewrite Hid.
  rewrite (find_replace Market._id) by (intros; exact Hid).
  unfold findMarket in Hm. now rewrite Hm.
Qed.

(** What the resolution route does once its checks have passed: the market
    is saved as resolved and stays so whatever the settlement loop does;
    the ledger only grows, by at most one entry per winning bet. *)
Lemma resolveMarket_run (env : Env) (now : Z) (marketId : Id)
    (resolution : string) (s : Store) (market : Market.t) :
  resolution <> "" ->
  findMarket marketId s = Some market ->
  Market.status market = Market.open \/ Market.status market = Market.closed ->
  includes resolution (Market.options market) = true ->
  exists r s',
    resolveMarket env now marketId resolution s = (r, s')
    /\ (r = Json 200 "Market resolved successfully"
        \/ r = Json 500 "Server error")
    /\ (includes "mongoose" (globals env) = true \/ activeBetsOn marketId s = []
        -> r = Json 200 "Market resolved successfully")
    /\ markets s'
       = markets (writeMarket (Market.resolve now resolution market) s)
    /\ exists new,
         transactions s' = (transactions s ++ new)%list
         /\ (length new
             <= length (filter (on resolution) (activeBetsOn marketId s)))%nat.
Proof.
  intros Hres Hm Hst Hinc.
  assert (Hid : Market._id market = marketId)
    by (apply (find_id Market._id _ _ _ Hm)).
  unfold resolveMarket, route, bind, gets, ret.
  destruct (String.eqb_spec resolution ""); [contradiction|].
  rewrite Hm. cbn beta iota.
  replace (negb (Market.Status_eqb (Market.status market) Market.open)
           && negb (Market.Status_eqb (Market.status market) Market.closed))
    with false by (destruct Hst as [-> | ->]; reflexivity).
  rewrite Hinc. cbn [negb].
  unfold Market_save. cbn [Market._id Market.resolve]. rewrite Hid, Hm.
  cbn [logUndo].
  set (m' := Market.resolve now resolution market).
  replace (activeBetsOn marketId (writeMarket m' s))
    with (activeBetsOn marketId s) by reflexivity.
  pose proof (settleLoop_frame env now m' resolution
                (activeBetsOn marketId s) (writeMarket m' s)) as F.
  assert (Hok : includes "mongoose" (globals env) = true
                \/ activeBetsOn marketId s = [] ->
                exists x, settleLoop env now m' resolution
                            (activeBetsOn marketId s) (writeMarket m' s)
                          = (Ok tt, x)).
  { intros [Hg|He].
    - now apply settleLoop_bound.
    - rewrite He. cbn [settleLoop]. unfold ret. eauto. }
  destruct (settleLoop env now m' resolution (activeBetsOn marketId s)
              (writeMarket m' s)) as [[[]|e] s'].
  - do 2 eexists. split; [reflexivity|]. split; [now left|].
    split; [reflexivity|]. exact F.
  - do 2 eexists. split; [reflexivity|]. split; [now right|].
    split; [|exact F].
    intros H. destruct (Hok H) as [x Hx]. discriminate Hx.
Qed.

(** X16.  A market without active bets is resolved on any host: the answer is a
    200 and the only change to the store is the market, saved as resolved
    with the resolution and its date. *)
Theorem resolveMarket_without_bets (env : Env) (now : Z) (marketId : Id)
    (resolution : string) (s : Store) (market : Market.t) :
  resolution <> "" ->
  findMarket marketId s = Some market ->
  Market.status market = Market.open \/ Market.status market = Market.closed ->
  includes resolution (Market.options market) = true ->
  activeBetsOn marketId s = [] ->
  resolveMarket env now marketId resolution s
  = (Json 200 "Market resolved successfully",
     writeMarket (Market.resolve now resolution market) s)
  /\ findMarket marketId
       (writeMarket (Market.resolve now resolution market) s)
     = Some (Market.mk (Market._id market) (Market.title market)
               (Market.type market) (Market.options market)
               (Market.endDate market) Market.resolved
               (Market.currentOdds market) (Market.totalVolume market)
               (Market.liquidity market) (Some resolution) (Some now)
               (Market.participantCount market)).
Proof.
  intros Hres Hm Hst Hinc Hbets.
  assert (Hid : Market._id market = marketId)
    by (apply (find_id Market._id _ _ _ Hm)).
  split; [|now apply (findMarket_written market)].
  unfold resolveMarket, route, bind, gets, ret.
  destruct (String.eqb_spec resolution ""); [contradiction|].
  rewrite Hm. cbn beta iota.
  replace (negb (Market.Status_eqb (Market.status market) Market.open)
           && negb (Market.Status_eqb (Market.status market) Market.closed))
    with false by (destruct Hst as [-> | ->]; reflexivity).
  rewrite Hinc. cbn [negb].
  unfold Market_save. cbn [Market._id Market.resolve]. rewrite Hid, Hm.
  cbn [logUndo].
  match goal with
  | |- context [activeBetsOn marketId (writeMarket ?m s)] =>
      replace (activeBetsOn marketId (writeMarket m s))
        with (activeBetsOn marketId s) by reflexivity
  end.
  rewrite Hbets. reflexivity.
Qed.

Lemma resolveMarket_without_bets_witness :
  findMarket 11 Crowd.s3 = Some Sample.cup
  /\ activeBetsOn 11 Crowd.s3 = []
  /\ fst (resolveMarket node 1000 11 "green" Crowd.s3)
     = Json 200 "Market resolved successfully"
  /\ users (snd (resolveMarket node 1000 11 "green" Crowd.s3))
     = users Crowd.s3.
Proof.
  split; [reflexivity|]. split; [reflexivity|].
  rewrite (proj1 (resolveMarket_without_bets node 1000 11 "green" Crowd.s3
                    Sample.cup ltac:(discriminate) eq_refl
                    ltac:(left; reflexivity) eq_refl eq_refl)).
  split; reflexivity.
Defined.



(** X18.  A resolution is final.  Whatever the host and whatever happened in the
    settlement loop, once the checks of [POST /:id/resolve] have passed the
    market is stored as resolved, and from then on every placement on it
    and every further resolution of it is rejected with a 400 that changes
    nothing, and so is every cancellation of a bet on it by its owner. *)
Theorem resolved_market_is_final (env : Env) (now : Z) (marketId : Id)
    (resolution : string) (s : Store) (market : Market.t) :
  resolution <> "" ->
  findMarket marketId s = Some market ->
  Market.status market = Market.open \/ Market.status market = Market.closed ->
  includes resolution (Market.options market) = true ->
  let s' := snd (resolveMarket env now marketId resolution s) in
  findMarket marketId s' = Some (Market.resolve now resolution market)
  /\ (forall now' user option amount,
        exists r, placeBet now' user marketId option amount s' = (r, s')
                  /\ status_of r = 400%nat)
  /\ (forall env' now' resolution',
        exists r, resolveMarket env' now' marketId resolution' s' = (r, s')
                  /\ status_of r = 400%nat)
  /\ (forall now' reqUser betId bet,
        findBet betId s' = Some bet -> Bet.marketId bet = marketId ->
        Bet.userId bet = User._id reqUser ->
        exists r, cancelBet now' reqUser betId s' = (r, s')
                  /\ status_of r = 400%nat).
Proof.
  intros Hres Hm Hst Hinc.
  destruct (resolveMarket_run env now marketId resolution s market
              Hres Hm Hst Hinc) as [r [s' [E [_ [_ [M _]]]]]].
  rewrite E. cbn [snd].
  assert (Hid : Market._id market = marketId)
    by (apply (find_id Market._id _ _ _ Hm)).
  assert (F : findMarket marketId s'
              = Some (Market.resolve now resolution market)).
  { rewrite (findMarket_ext _ _ _ M).
    now apply (findMarket_written market). }
  split; [exact F|]. split; [|split].
  - intros now' user option amount. unfold placeBet, route.
    destruct (String.eqb option "" || negb (1 <=? amount));
      [eexists; split; reflexivity|].
    destruct (Rlt_dec (User.balance user) (IZR amount));
      [eexists; split; reflexivity|].
    unfold bind, gets. rewrite F. eexists; split; reflexivity.
  - intros env' now' resolution'. unfold resolveMarket, route.
    destruct (String.eqb resolution' ""); [eexists; split; reflexivity|].
    unfold bind, gets. rewrite F. eexists; split; reflexivity.
  - intros now' reqUser betId bet Hb Hbm Hown. unfold cancelBet, route.
    unfold bind, gets. rewrite Hb, Hown, Nat.eqb_refl. cbn [negb].
    destruct (negb (Bet.Status_eqb (Bet.status bet) Bet.active));
      [eexists; split; reflexivity|].
    rewrite Hbm, F. eexists; split; reflexivity.
Qed.

Lemma resolved_market_is_final_witness :
  findMarket 10 Crowd.s3 = Some Crowd.rain3
  /\ option_map Market.status
       (findMarket 10 (snd (resolveMarket node 1000 10 "yes" Crowd.s3)))
     = Some Market.resolved
  /\ exists r,
       fst (placeBet 2000 Sample.alice 10 "no" 10
              (snd (resolveMarket node 1000 10 "yes" Crowd.s3))) = r
       /\ status_of r = 400%nat.
Proof.
  split; [reflexivity|].
  destruct (resolved_market_is_final node 1000 10 "yes" Crowd.s3 Crowd.rain3
              ltac:(discriminate) eq_refl ltac:(left; reflexivity) eq_refl)
    as [F [P _]].
  split; [rewrite F; reflexivity|].
  destruct (P 2000 Sample.alice "no" 10) as [r [E St]].
  exists r. split; [now rewrite E | exact St].
Defined.

(** ** Settling a winning bet *)



(** ** The administrative adjustment *)







(** ** What the ledger records of a history with adjustments *)






(** ** Markets that take no bets *)

(** X23.  A market that is not open, or whose end date has been reached, takes
    no bet: whatever the request, [POST /] answers 400 and leaves the store
    as it was.  The end date itself is already too late. *)
Theorem placeBet_needs_open_market (now : Z) (user : User.t)
    (marketId : Id) (option : string) (amount : Z) (s : Store)
    (market : Market.t) :
  findMarket marketId s = Some market ->
  Market.status market <> Market.open \/ Market.endDate market <= now ->
  exists r,
    placeBet now user marketId option amount s = (r, s)
    /\ status_of r = 400%nat
    /\ (option <> "" -> 1 <= amount ->
        ~ (User.balance user < IZR amount)%R ->
        r = Json 400 "Market is not open for betting").
Proof.
  intros Hm Hclosed.
  assert (Hopen : Market.isOpen now market = false).
  { unfold Market.isOpen. destruct Hclosed as [H|H].
    - destruct (Market.status market); try reflexivity. contradiction.
    - apply andb_false_iff. right. apply Z.ltb_ge. exact H. }
  unfold placeBet, route.
  destruct (String.eqb_spec option "") as [Eo|Eo]; cbn [orb].
  { eexists; repeat split; intros; contradiction. }
  destruct (Z.leb_spec 1 amount) as [Ea|Ea]; cbn [negb].
  2:{ eexists; repeat split; intros; lia. }
  destruct (Rlt_dec (User.balance user) (IZR amount)).
  { eexists; repeat split; intros; contradiction. }
  unfold bind, gets. rewrite Hm, Hopen. eexists; repeat split.
Qed.

Lemma placeBet_needs_open_market_witness :
  findMarket 10 Sample.s0 = Some Sample.rain
  /\ Market.endDate Sample.rain <= 86400000
  /\ placeBet 86400000 Sample.alice 10 "yes" 100 Sample.s0
     = (Json 400 "Market is not open for betting", Sample.s0).
Proof.
  assert (H : Market.endDate Sample.rain <= 86400000) by (simpl; lia).
  split; [reflexivity|]. split; [exact H|].
  destruct (placeBet_needs_open_market 86400000 Sample.alice 10 "yes" 100
              Sample.s0 Sample.rain eq_refl (or_intror H))
    as [r [E [_ Hr]]].
  rewrite E. f_equal. apply Hr.
  - discriminate.
  - lia.
  - simpl. lra.
Defined.

(** X24.  [calculateInitialOdds] prices only the first two options of a binary
    market.  The creation route accepts a binary market with more options;
    a further option, distinct from the first two, then has no initial
    price, and a stake on it that passes every other check is rejected
    with "Odds not available for this option". *)
Theorem binary_market_third_option_unpriced (this : Market.t)
    (a b o : string) (rest : list string) :
  Market.type this = Market.binary ->
  Market.options this = a :: b :: rest ->
  In o rest -> o <> a -> o <> b ->
  let market := Market.calculateInitialOdds this in
  Obj.get o (Market.currentOdds market) = None
  /\ forall now user marketId amount s,
       findMarket marketId s = Some market ->
       Market.isOpen now market = true -> o <> "" -> 1 <= amount ->
       ~ (User.balance user < IZR amount)%R ->
       activeBetOf (User._id user) marketId s = None ->
       placeBet now user marketId o amount s
       = (Json 400 "Odds not available for this option", s).
Proof.
  intros Hty Hopts Hin Ha Hb market.
  assert (Hget : Obj.get o (Market.currentOdds market) = None).
  { subst market. unfold Market.calculateInitialOdds. rewrite Hty.
    cbn [Market.currentOdds Market.set_currentOdds].
    unfold Market.option_at. rewrite Hopts. cbn [nth].
    rewrite get_set_other by exact Hb.
    rewrite get_set_other by exact Ha. reflexivity. }
  split; [exact Hget|].
  intros now user marketId amount s Hm Hopen Ho Hamt Hbal Hnone.
  assert (Hinc : includes o (Market.options market) = true).
  { apply includes_In. subst market.
    unfold Market.calculateInitialOdds.
    cbn [Market.options Market.set_currentOdds]. rewrite Hopts.
    right; right; exact Hin. }
  unfold placeBet, route.
  destruct (String.eqb_spec o ""); [contradiction|].
  destruct (Z.leb_spec 1 amount); [|lia]. cbn [negb orb].
  destruct (Rlt_dec (User.balance user) (IZR amount)); [contradiction|].
  unfold bind, gets. rewrite Hm, Hopen, Hinc. cbn [negb].
  rewrite Hnone, Hget. reflexivity.
Qed.

Lemma binary_market_third_option_unpriced_witness :
  let this :=
    Market.mk 12 "Match result?" Market.binary ["home"; "away"; "draw"]
              86400000 Market.open [] 0 10000 None None 0 in
  Market.type this = Market.binary
  /\ In "draw" ["draw"]
  /\ Obj.get "draw" (Market.currentOdds (Market.calculateInitialOdds this))
     = None
  /\ Obj.get "home" (Market.currentOdds (Market.calculateInitialOdds this))
     = Some 0.5%R.
Proof.
  cbv zeta. split; [reflexivity|].
  assert (H : In "draw" ["draw"]) by (simpl; auto).
  split; [exact H|]. split; [|reflexivity].
  exact (proj1 (binary_market_third_option_unpriced
                  (Market.mk 12 "Match result?" Market.binary
                     ["home"; "away"; "draw"] 86400000 Market.open [] 0
                     10000 None None 0)
                  "home" "away" "draw" ["draw"] eq_refl eq_refl H
                  ltac:(discriminate) ltac:(discriminate))).
Defined.

(** ** What a placement does to the market *)







(** ** The airdrop *)

Lemma set_balance_twice (a b : R) (u : User.t) :
  User.set_balance a (User.set_balance b u) = User.set_balance a u.
Proof. reflexivity. Qed.

Lemma airdrop_run (adminId : Id) (per : Z) (us : list User.t) (s : Store) :
  1 <= per ->
  NoDup (map User._id us) ->
  (forall u, In u us ->
             findUser (User._id u) s = Some u /\ (0 <= User.balance u)%R) ->
  exists s' new,
    airdrop adminId per us s = (Ok tt, s')
    /\ (forall u, In u us ->
          findUser (User._id u) s'
          = Some (User.set_balance
                    (User.balance u + IZR per + IZR per)%R u))
    /\ (forall id, ~ In id (map User._id us) ->
                   findUser id s' = findUser id s)
    /\ transactions s' = (transactions s ++ new)%list
    /\ map Transaction.amount new = map (fun _ => IZR per) us
    /\ map Transaction.userId new = map User._id us
    /\ bets s' = bets s /\ markets s' = markets s.
Proof.
  intros Hper. assert (Hp : (1 <= IZR per)%R) by (now apply IZR_le).
  revert s. induction us as [|u rest IH]; intros s Hnd Hin.
  - exists s, []. cbn [airdrop]. unfold ret. rewrite app_nil_r.
    repeat split; auto. intros u [].
  - inversion Hnd as [|x l Hnotin Hnd']; subst.
    destruct (Hin u (or_introl eq_refl)) as [Hu Hb].
    cbn [airdrop]. unfold bind at 1.
    set (u1 := User.set_balance (User.balance u + IZR per)%R u).
    assert (E1 : User_save no_session [User.balance_] u1 s
                 = (Ok tt, writeUser [User.balance_] u1 s)).
    { unfold User_save. cbn [existsb is_balance orb].
      destruct (Rlt_dec (User.balance u1) 0) as [L|L].
      { subst u1. simpl in L. lra. }
      cbn [andb]. change (User._id u1) with (User._id u). rewrite Hu.
      reflexivity. }
    rewrite E1. unfold bind at 1.
    set (s1 := writeUser [User.balance_] u1 s).
    set (data := Transaction.mkData _ _ _ _ _ _ _).
    assert (Hu1 : findUser (Transaction.d_userId data) s1 = Some u1).
    { subst data s1 u1. cbn [Transaction.d_userId User._id User.set_balance].
      now apply findUser_set_balance_written. }
    destruct (createTransaction_ok data s1 u1 Hu1) as [tx [s2 E2]].
    { subst data u1. simpl. lra. }
    { reflexivity. }
    pose proof (createTransaction_cases data s1) as C. rewrite E2 in C.
    destruct C as [u' [F [U [M [B [T [X1 [X2 _]]]]]]]].
    rewrite Hu1 in F. injection F as <-.
    rewrite E2.
    assert (Hs2 : forall id, id <> User._id u ->
                             findUser id s2 = findUser id s).
    { intros id Hne. rewrite (findUser_ext _ _ _ U).
      rewrite findUser_writeUser_other by (simpl; congruence).
      subst s1. now rewrite findUser_writeUser_other by (simpl; congruence). }
    assert (Hu2 : findUser (User._id u) s2
                  = Some (User.set_balance
                            (User.balance u + IZR per + IZR per)%R u)).
    { rewrite (findUser_ext _ _ _ U).
      change (User._id u) with (Transaction.d_userId data).
      rewrite (findUser_set_balance_written u1 _ _ s1 Hu1).
      reflexivity. }
    destruct (IH s2 Hnd') as [s' [new [E [A [O [T' [Am [Us [B' M']]]]]]]]].
    { intros v Hv. destruct (Hin v (or_intror Hv)) as [Fv Bv].
      split; [|exact Bv]. rewrite Hs2; [exact Fv|].
      intros Eq. apply Hnotin. rewrite <- Eq. now apply in_map. }
    exists s', (tx :: new). split; [exact E|].
    split.
    { intros v [<-|Hv]; [|now apply A].
      rewrite (O _ Hnotin). exact Hu2. }
    split.
    { intros id Hid. rewrite O by (intros H; apply Hid; now right).
      apply Hs2. intros Eq. apply Hid. left. now rewrite Eq. }
    split.
    { rewrite T', T. subst s1. cbn [transactions writeUser set_users].
      now rewrite <- app_assoc. }
    split; [cbn [map]; now rewrite Am, X2|].
    split; [cbn [map]; now rewrite Us, X1|].
    split; [now rewrite B', B | now rewrite M', M].
Qed.

Lemma find_NoDup_id (l : list User.t) (u : User.t) :
  NoDup (map User._id l) -> In u l ->
  find (fun x => Nat.eqb (User._id x) (User._id u)) l = Some u.
Proof.
  induction l as [|x l IH]; intros Hnd Hin; [destruct Hin|].
  inversion Hnd as [|y l' Hnotin Hnd']; subst. cbn [find].
  destruct Hin as [->|Hin]; [now rewrite Nat.eqb_refl|].
  destruct (Nat.eqb_spec (User._id x) (User._id u)) as [E|E];
    [|now apply IH].
  exfalso. apply Hnotin. rewrite E. now apply in_map.
Qed.

Lemma active_ids_NoDup (isActive : User.t -> bool) (us : list User.t) :
  NoDup (map User._id us) -> NoDup (map User._id (filter isActive us)).
Proof.
  intros Hnd. induction us as [|u us IH]; [constructor|].
  inversion Hnd as [|y l' Hnotin Hnd']; subst. cbn [filter].
  destruct (isActive u); [|now apply IH]. cbn [map].
  constructor; [|now apply IH].
  intros Hin. apply Hnotin. apply in_map_iff in Hin as [z [Ez Hz]].
  apply filter_In in Hz as [Hz _]. rewrite <- Ez. now apply in_map.
Qed.

(** X26.  The airdrop credits every active user twice what it records.  With
    [n > 0] active users and [amount >= n], each of them is credited
    [2 * floor(amount / n)] while the ledger gains one entry of
    [floor(amount / n)] per active user, in order; inactive users, bets
    and markets are untouched.  What is handed out in all,
    [2 * n * floor(amount / n)], can exceed [amount]. *)
Theorem airdrop_credits_twice (isActive : User.t -> bool) (adminId : Id)
    (amount : Z) (s : Store) :
  NoDup (map User._id (users s)) ->
  Forall (fun u => (0 <= User.balance u)%R) (users s) ->
  amount <= 1000000 ->
  let active := filter isActive (users s) in
  let n := Z.of_nat (length active) in
  0 < n <= amount ->
  exists s' new,
    generateUnits isActive adminId amount s
      = (Json 200 ("Generated " ++ show (amount / n)
                   ++ " units for each of " ++ show n ++ " users"), s')
    /\ (forall u, In u (users s) ->
          balanceOf (User._id u) s'
          = Some (if isActive u
                  then User.balance u + 2 * IZR (amount / n)
                  else User.balance u)%R)
    /\ transactions s' = (transactions s ++ new)%list
    /\ map Transaction.amount new = map (fun _ => IZR (amount / n)) active
    /\ map Transaction.userId new = map User._id active
    /\ bets s' = bets s /\ markets s' = markets s.
Proof.
  intros Hnd Hbal Hmax active n [Hn Hna].
  assert (Hper : 1 <= amount / n).
  { apply Z.div_le_lower_bound; lia. }
  assert (Hfind : forall u, In u (users s) ->
                            findUser (User._id u) s = Some u).
  { intros u Hu. unfold findUser. now apply find_NoDup_id. }
  destruct (airdrop_run adminId (amount / n) active s Hper)
    as [s' [new [E [A [O [T [Am [Us [B M]]]]]]]]].
  { now apply active_ids_NoDup. }
  { intros u Hu. apply filter_In in Hu as [Hu _].
    split; [now apply Hfind|].
    rewrite Forall_forall in Hbal. now apply Hbal. }
  exists s', new. split.
  { unfold generateUnits, route.
    destruct (Z.leb_spec 1 amount); [|lia].
    destruct (Z.ltb_spec 1000000 amount); [lia|]. cbn [negb orb].
    unfold bind at 1, gets at 1. fold active.
    destruct active as [|a0 rest] eqn:Hact; [simpl in n; lia|].
    cbv zeta. fold n.
    destruct (Z.eqb_spec (amount / n) 0); [lia|].
    unfold bind. rewrite E. reflexivity. }
  split.
  { intros u Hu. unfold balanceOf.
    destruct (isActive u) eqn:Ha.
    - rewrite (A u) by (apply filter_In; split; assumption).
      simpl. f_equal. lra.
    - rewrite O, (Hfind u Hu); [reflexivity|].
      intros Hin. apply in_map_iff in Hin as [v [Ev Hv]].
      apply filter_In in Hv as [Hv Hav].
      assert (v = u).
      { pose proof (Hfind v Hv) as Fv. rewrite Ev, (Hfind u Hu) in Fv.
        congruence. }
      subst v. congruence. }
  auto.
Qed.

Lemma airdrop_credits_twice_witness :
  NoDup (map User._id (users Sample.s0))
  /\ (0 < Z.of_nat (length (filter (fun _ => true) (users Sample.s0)))
      <= 10)
  /\ exists s',
       generateUnits (fun _ => true) 9 10 Sample.s0
         = (Json 200 "Generated 3 units for each of 3 users", s')
       /\ balanceOf 1 s' = Some (1000 + 2 * 3)%R
       /\ length (transactions s') = 3%nat.
Proof.
  assert (H1 : NoDup (map User._id (users Sample.s0))).
  { simpl. repeat constructor; simpl; intuition discriminate. }
  assert (H2 : 0 < Z.of_nat (length (filter (fun _ => true)
                                        (users Sample.s0))) <= 10)
    by (simpl; lia).
  split; [exact H1|]. split; [exact H2|].
  destruct (airdrop_credits_twice (fun _ => true) 9 10 Sample.s0 H1
              ltac:(repeat constructor; simpl; lra) ltac:(lia) H2)
    as [s' [new [E [Bal [T [Am _]]]]]].
  exists s'. split; [exact E|]. split.
  - exact (Bal Sample.alice (or_introl eq_refl)).
  - rewrite T. simpl. apply (f_equal (@length R)) in Am.
    rewrite !length_map in Am. rewrite Am. reflexivity.
Defined.

(** X27.  The two edges of the airdrop.  With no active user the division is by
    zero: the quotient is [Infinity], the "too small" test does not fire,
    and the route answers 200 announcing "Infinity units for each of 0
    users".  With more active users than units the quotient floors to 0
    and the request is rejected.  Neither changes the store. *)
Theorem airdrop_edges (isActive : User.t -> bool) (adminId : Id)
    (amount : Z) (s : Store) :
  1 <= amount <= 1000000 ->
  let active := filter isActive (users s) in
  (active = [] ->
   generateUnits isActive adminId amount s
   = (Json 200 "Generated Infinity units for each of 0 users", s))
  /\ (amount < Z.of_nat (length active) ->
      generateUnits isActive adminId amount s
      = (Json 400 "Amount too small to distribute", s)).
Proof.
  intros [H1 H2] active. unfold generateUnits, route.
  destruct (Z.leb_spec 1 amount); [|lia].
  destruct (Z.ltb_spec 1000000 amount); [lia|]. cbn [negb orb].
  unfold bind, gets. fold active. split.
  - intros ->. reflexivity.
  - intros Hlt. destruct active as [|a0 rest] eqn:Hact; [simpl in Hlt; lia|].
    cbv zeta.
    destruct (Z.eqb_spec (amount / Z.of_nat (length (a0 :: rest))) 0)
      as [|Hne]; [reflexivity|].
    exfalso. apply Hne. apply Z.div_small. lia.
Qed.

Lemma airdrop_edges_witness :
  1 <= 2 <= 1000000
  /\ generateUnits (fun _ => false) 9 2 Sample.s0
     = (Json 200 "Generated Infinity units for each of 0 users", Sample.s0)
  /\ generateUnits (fun _ => true) 9 2 Sample.s0
     = (Json 400 "Amount too small to distribute", Sample.s0).
Proof.
  assert (H : 1 <= 2 <= 1000000) by lia.
  split; [exact H|]. split.
  - exact (proj1 (airdrop_edges (fun _ => false) 9 2 Sample.s0 H) eq_refl).
  - exact (proj2 (airdrop_edges (fun _ => true) 9 2 Sample.s0 H)
             ltac:(simpl; lia)).
Defined.

(** ** Losing bets *)

Lemma bets_writeBet_ext (doc : Bet.t) (s s' : Store) :
  bets s' = bets s -> bets (writeBet doc s') = bets (writeBet doc s).
Proof.
  intros B. unfold writeBet. rewrite (findBet_ext _ _ _ B).
  destruct (findBet (Bet._id doc) s); cbn [bets set_bets]; now rewrite B.
Qed.

Lemma settle_id (now : Z) (resolution : string) (bet : Bet.t) :
  Bet._id (Bet.settle now resolution bet) = Bet._id bet.
Proof. unfold Bet.settle. destruct (String.eqb _ _); reflexivity. Qed.

(** One settlement attempt and the bet collection: a commit changes only
    the settled bet; after a failure, undoing the session's writes puts
    every bet back as it was. *)
Lemma settleBet_transaction_bets (now : Z) (market : Market.t)
    (resolution : string) (bet : Bet.t) (s : Store) :
  txlog s = [] ->
  findBet (Bet._id bet) s = Some bet ->
  match settleBet_transaction now market resolution bet s with
  | (Ok _, s') =>
      forall id, id <> Bet._id bet -> findBet id s' = findBet id s
  | (Throw _, s') =>
      forall id,
        findBet id (fold_left (fun st u => undo u st) (txlog s') s')
        = findBet id s
  end.
Proof.
  intros Hlog Hb.
  pose proof (settleBet_transaction_cases now market resolution bet s) as C.
  destruct (settleBet_transaction now market resolution bet s)
    as [[[]|e] s'] eqn:Erun.
  { destruct C as [_ [B _]]. intros id Hne.
    rewrite (findBet_ext _ _ _ B).
    apply findBet_writeBet_other. now rewrite settle_id. }
  clear C. revert Erun.
  unfold settleBet_transaction, bind, gets.
  unfold Bet_save at 1. cbn [logUndo].
  set (b := Bet.settle now resolution bet).
  assert (Hbid : Bet._id b = Bet._id bet) by apply settle_id.
  rewrite Hbid, Hb, txlog_writeBet, Hlog.
  set (s1 := set_txlog [UndoBet (Bet._id bet) (Some bet)] (writeBet b s)).
  assert (F1 : forall id, findBet id (writeBet bet s1) = findBet id s).
  { intros id. destruct (Nat.eq_dec id (Bet._id bet)) as [->|Hne].
    - now rewrite findBet_writeBet, Hb.
    - rewrite findBet_writeBet_other by exact Hne.
      rewrite (findBet_ext _ (writeBet b s)) by reflexivity.
      apply findBet_writeBet_other. now rewrite Hbid. }
  assert (Key : forall x,
             bets x = bets s1 ->
             txlog x = txlog s1
             \/ (exists p pre, txlog x = UndoUser p pre :: txlog s1) ->
             forall id,
               findBet id (fold_left (fun st u => undo u st) (txlog x) x)
               = findBet id s).
  { intros x Bx Lx id. rewrite <- F1.
    destruct Lx as [->|[p [pre ->]]]; cbn [txlog s1 set_txlog fold_left undo];
      apply findBet_ext, bets_writeBet_ext; exact Bx. }
  destruct (findUser (Bet.userId b) s1) as [user|].
  2:{ intros [= _ <-]. apply Key; auto. }
  set (paths := if Bet.Status_eqb (Bet.status b) Bet.won then _ else _).
  set (u := settle_user b user).
  unfold User_save.
  destruct (existsb is_balance paths
            && (if Rlt_dec (User.balance u) 0 then true else false)).
  { intros [= _ <-]. apply Key; auto. }
  set (s2 := match findUser (User._id u) s1 with
             | Some pre => _ | None => _ end).
  assert (M2 : exists x,
             s2 = (Ok tt, x) /\ bets x = bets s1
             /\ (txlog x = txlog s1
                 \/ exists p pre, txlog x = UndoUser p pre :: txlog s1)).
  { subst s2. destruct (findUser (User._id u) s1).
    - eexists. split; [reflexivity|]. split; [reflexivity|].
      right. cbn [logUndo txlog set_txlog]. eauto.
    - eexists. split; [reflexivity|]. split; [reflexivity|]. now left. }
  destruct M2 as [x [Ex [Bx Lx]]]. rewrite Ex.
  rewrite createTransaction_eq.
  destruct (findUser _ x) as [w|].
  2:{ intros [= _ <-]. now apply Key. }
  cbn zeta.
  destruct (Rlt_dec _ 0).
  { intros [= _ <-]. now apply Key. }
  destruct (Transaction.valid_type _).
  { unfold commitTransaction, modify. discriminate. }
  intros [= _ <-]. now apply Key.
Qed.

(** Across the settlement loop, a bet of the list that is on a losing
    option is found afterwards exactly as it was before, and so is every
    bet that is not in the list. *)
Lemma settleLoop_bets (env : Env) (now : Z) (market : Market.t)
    (resolution : string) (activeBets : list Bet.t) (s : Store)
    (r : Exc unit) (s' : Store) :
  NoDup (map Bet._id activeBets) ->
  (forall b, In b activeBets -> findBet (Bet._id b) s = Some b) ->
  settleLoop env now market resolution activeBets s = (r, s') ->
  (forall b, In b activeBets -> Bet.option b <> resolution ->
             findBet (Bet._id b) s' = Some b)
  /\ (forall id, ~ In id (map Bet._id activeBets) ->
                 findBet id s' = findBet id s).
Proof.
  revert s. induction activeBets as [|bet rest IH]; intros s Hnd Hin.
  { cbn [settleLoop]. unfold ret. intros [= _ <-].
    split; [intros b []|auto]. }
  inversion Hnd as [|x l Hnotin Hnd']; subst.
  cbn [settleLoop]. unfold bind at 1, identifier.
  destruct (includes "mongoose" markets_js_scope
            || includes "mongoose" (globals env)).
  2:{ unfold throw. intros [= _ <-]. split; [|auto].
      intros b Hb _. now apply Hin. }
  unfold ret. unfold bind at 1, startTransaction, modify.
  unfold bind at 1, try_catch.
  pose proof (settleBet_transaction_bets now market resolution bet
                (set_txlog [] s) eq_refl (Hin bet (or_introl eq_refl))) as F.
  pose proof (settleBet_transaction_cases now market resolution bet
                (set_txlog [] s)) as C.
  destruct (settleBet_transaction now market resolution bet
              (set_txlog [] s)) as [[[]|e] s1].
  - destruct C as [Hwin _]. intros E.
    assert (Hrest : forall b, In b rest -> findBet (Bet._id b) s1 = Some b).
    { intros b Hb. rewrite F.
      - apply (Hin b). now right.
      - intros Eq. apply Hnotin. rewrite <- Eq. now apply in_map. }
    destruct (IH s1 Hnd' Hrest E) as [L O]. split.
    + intros b [<-|Hb] Hlose; [contradiction | now apply L].
    + intros id Hid. rewrite O by (intros H; apply Hid; now right).
      apply F. intros ->. apply Hid. now left.
  - unfold abortTransaction, modify.
    set (s2 := set_txlog [] (fold_left (fun st u => undo u st) (txlog s1) s1)).
    intros E.
    assert (F2 : forall id, findBet id s2 = findBet id s)
      by (intros id; apply F).
    assert (Hrest : forall b, In b rest -> findBet (Bet._id b) s2 = Some b).
    { intros b Hb. rewrite F2. apply Hin. now right. }
    destruct (IH s2 Hnd' Hrest E) as [L O]. split.
    + intros b [<-|Hb] Hlose; [|now apply L].
      rewrite (O _ Hnotin), F2. apply Hin. now left.
    + intros id Hid. rewrite O by (intros H; apply Hid; now right).
      apply F2.
Qed.

Lemma findBet_NoDup_id (l : list Bet.t) (b : Bet.t) :
  NoDup (map Bet._id l) -> In b l ->
  find (fun x => Nat.eqb (Bet._id x) (Bet._id b)) l = Some b.
Proof.
  induction l as [|x l IH]; intros Hnd Hin; [destruct Hin|].
  inversion Hnd as [|y l' Hnotin Hnd']; subst. cbn [find].
  destruct Hin as [->|Hin]; [now rewrite Nat.eqb_refl|].
  destruct (Nat.eqb_spec (Bet._id x) (Bet._id b)) as [E|E];
    [|now apply IH].
  exfalso. apply Hnotin. rewrite E. now apply in_map.
Qed.

Lemma activeBetsOn_ids_NoDup (marketId : Id) (s : Store) :
  NoDup (map Bet._id (bets s)) ->
  NoDup (map Bet._id (activeBetsOn marketId s)).
Proof.
  unfold activeBetsOn. generalize (bets s). intros l Hnd.
  induction l as [|x l IH]; [constructor|].
  inversion Hnd as [|y l' Hnotin Hnd']; subst. cbn [filter].
  destruct (_ && _); [|now apply IH]. cbn [map].
  constructor; [|now apply IH].
  intros Hin. apply Hnotin. apply in_map_iff in Hin as [z [Ez Hz]].
  apply filter_In in Hz as [Hz _]. rewrite <- Ez. now apply in_map.
Qed.

(** X28.  A losing bet is never settled.  Whatever the host, after a resolution
    that passed the route's checks every bet on another option than the
    resolution is stored exactly as it was before: still active, with no
    settlement date and no payout; and bets on other markets are not
    touched either. *)
Theorem losing_bets_stay_active (env : Env) (now : Z) (marketId : Id)
    (resolution : string) (s : Store) (market : Market.t) (b : Bet.t) :
  resolution <> "" ->
  findMarket marketId s = Some market ->
  Market.status market = Market.open \/ Market.status market = Market.closed ->
  includes resolution (Market.options market) = true ->
  NoDup (map Bet._id (bets s)) ->
  In b (bets s) ->
  Bet.option b <> resolution \/ Bet.marketId b <> marketId ->
  findBet (Bet._id b) (snd (resolveMarket env now marketId resolution s))
  = Some b.
Proof.
  intros Hres Hm Hst Hinc Hnd Hb Hlose.
  assert (Hid : Market._id market = marketId)
    by (apply (find_id Market._id _ _ _ Hm)).
  assert (Hfind : forall x, In x (bets s) -> findBet (Bet._id x) s = Some x).
  { intros x Hx. unfold findBet. now apply findBet_NoDup_id. }
  unfold resolveMarket, route, bind, gets, ret.
  destruct (String.eqb_spec resolution ""); [contradiction|].
  rewrite Hm. cbn beta iota.
  replace (negb (Market.Status_eqb (Market.status market) Market.open)
           && negb (Market.Status_eqb (Market.status market) Market.closed))
    with false by (destruct Hst as [-> | ->]; reflexivity).
  rewrite Hinc. cbn [negb].
  unfold Market_save. cbn [Market._id Market.resolve]. rewrite Hid, Hm.
  cbn [logUndo].
  set (m' := Market.resolve now resolution market).
  set (s0 := writeMarket m' s).
  replace (activeBetsOn marketId s0) with (activeBetsOn marketId s)
    by reflexivity.
  destruct (settleLoop env now m' resolution (activeBetsOn marketId s) s0)
    as [r s'] eqn:E.
  destruct (settleLoop_bets env now m' resolution (activeBetsOn marketId s)
              s0 r s' (activeBetsOn_ids_NoDup marketId s Hnd)) as [L O];
    [|exact E|].
  { intros x Hx. apply filter_In in Hx as [Hx _]. now apply (Hfind x). }
  assert (Hfound : findBet (Bet._id b) s' = Some b).
  { destruct (in_dec Nat.eq_dec (Bet._id b)
                (map Bet._id (activeBetsOn marketId s))) as [Hin|Hout].
    - apply in_map_iff in Hin as [x [Ex Hx]].
      pose proof Hx as Hx'. apply filter_In in Hx' as [Hxs Hxa].
      assert (x = b).
      { pose proof (Hfind x Hxs) as Fx. rewrite Ex, (Hfind b Hb) in Fx.
        congruence. }
      subst x. apply L; [exact Hx|].
      destruct Hlose as [H|H]; [exact H|].
      apply andb_true_iff in Hxa as [Hxm _]. apply Nat.eqb_eq in Hxm.
      contradiction.
    - rewrite (O _ Hout). now apply (Hfind b). }
  destruct r as [[]|e]; exact Hfound.
Qed.

Lemma losing_bets_stay_active_witness :
  findMarket 10 Crowd.s3 = Some Crowd.rain3
  /\ NoDup (map Bet._id (bets Crowd.s3))
  /\ In Crowd.bet2 (bets Crowd.s3)
  /\ option_map (fun b => (Bet.status b, Bet.settledAt b))
       (findBet 102
          (snd (resolveMarket with_mongoose 1000 10 "yes" Crowd.s3)))
     = Some (Bet.active, None).
Proof.
  assert (H1 : NoDup (map Bet._id (bets Crowd.s3))).
  { simpl. repeat constructor; simpl; intuition discriminate. }
  assert (H2 : In Crowd.bet2 (bets Crowd.s3)) by (simpl; auto).
  split; [reflexivity|]. split; [exact H1|]. split; [exact H2|].
  change 102%nat with (Bet._id Crowd.bet2).
  rewrite (losing_bets_stay_active with_mongoose 1000 10 "yes" Crowd.s3
             Crowd.rain3 Crowd.bet2 ltac:(discriminate) eq_refl
             ltac:(left; reflexivity) eq_refl H1 H2
             ltac:(left; discriminate)).
  reflexivity.
Defined.

(** ** What a cancellation does to the market *)



